(** * Streaming per-signal anomaly detector

    A shallow embedding of [docker/anomaly-detection/src/detector.py]:
    the [AnomalyDetector] class (a bounded [deque] per tag, a z-score test
    against the mean and population standard deviation of the window) and
    the polling loop of [main] that feeds it and builds alert payloads.

    Samples are IEEE binary64 numbers, as in Python and NumPy: they are
    modelled by Rocq's primitive floats, so that NaN, the infinities, signed
    zeros and rounding behave as they do in the program. Python integers
    are [Z]. *)

From Stdlib Require Import Floats ZArith Uint63 Lia.
From stdpp Require Import gmap strings list fin_maps.

Open Scope Z_scope.

(** ** Python values the detector relies on *)

Module Py.

(** Exceptions that can travel through the code under study. [UaError]
    stands for whatever the OPC-UA client raises on a failed read. *)
Inductive exn : Type :=
| ValueError (msg : string)
| OverflowError (msg : string)
| KeyError (msg : string)
| FloatingPointError (msg : string)
| UaError (msg : string).

(** [str(e)] *)
Definition str_exn (e : exn) : string :=
  match e with
  | ValueError m | OverflowError m | KeyError m | FloatingPointError m
  | UaError m => m
  end.

Inductive result (A : Type) : Type :=
| Ok (a : A)
| Raise (e : exn).
Arguments Ok {A} a.
Arguments Raise {A} e.

Definition is_ok {A} (r : result A) : bool :=
  match r with Ok _ => true | Raise _ => false end.

(** [collections.deque] with a bound: the bound and the items, oldest
    first. *)
Record deque : Type := Deque { maxlen : Z; items : list float }.

(** The range of a C [Py_ssize_t] on the 64-bit builds of CPython. *)
Abbreviation PY_SSIZE_T_MAX := 9223372036854775807 (only parsing).
Abbreviation PY_SSIZE_T_MIN := (-9223372036854775808) (only parsing).

(** [deque(maxlen=n)]: the bound is first converted to a [Py_ssize_t],
    which fails outside the range of that type; a negative bound is
    refused next. *)
Definition deque_new (n : Z) : result deque :=
  if (n <? PY_SSIZE_T_MIN) || (PY_SSIZE_T_MAX <? n)
  then Raise (OverflowError "Python int too large to convert to C ssize_t")
  else if n <? 0 then Raise (ValueError "maxlen must be non-negative")
  else Ok (Deque n []).

(** [len(d)] *)
Definition len (d : deque) : Z := Z.of_nat (length (items d)).

(** [d.append(x)]: the item is added on the right and, when the deque
    has grown past its bound, one item is dropped on the left. *)
Definition deque_append (d : deque) (x : float) : deque :=
  let grown := items d ++ [x] in
  if maxlen d <? Z.of_nat (length grown)
  then Deque (maxlen d) (tail grown)
  else Deque (maxlen d) grown.

(** An integer count as a float64 (exact below 2^53). *)
Definition float_of_count (n : nat) : float :=
  PrimFloat.of_uint63 (Uint63.of_Z (Z.of_nat n)).

(** Division of NumPy float64 scalars. A zero divisor makes NumPy
    signal "divide by zero" or "invalid value": a [RuntimeWarning] by
    default, a [FloatingPointError] under [np.seterr(all='raise')]. The
    model makes the signal an exception in every configuration, so that
    its absence can be stated. *)
Definition true_divide (a b : float) : result float :=
  if PrimFloat.eqb b 0%float
  then Raise (FloatingPointError "divide by zero encountered in scalar divide")
  else Ok (PrimFloat.div a b).

End Py.
Export Py.

(** ** NumPy reductions

    [np.mean] and [np.std] reduce the array with [np.add.reduce]. The
    order in which that reduction adds the elements is NumPy's own
    (pairwise blocks, vector lanes) and differs between versions, so it
    is a parameter of the development; everything else follows
    [numpy/core/_methods.py]. *)

Class NumPy : Type := { np_sum : list float -> float }.

Section Reductions.
Context `{NumPy}.

(** [np.mean(values)]: the sum divided by the count. *)
Definition np_mean (values : list float) : float :=
  PrimFloat.div (np_sum values) (float_of_count (length values)).

(** [np.std(values)] with the default [ddof=0]: the square root of the
    mean of the squared deviations from the mean. *)
Definition np_std (values : list float) : float :=
  let arrmean := np_mean values in
  let x := map (fun v => PrimFloat.sub v arrmean) values in
  let x := map (fun d => PrimFloat.mul d d) x in
  PrimFloat.sqrt (PrimFloat.div (np_sum x) (float_of_count (length values))).

End Reductions.

(** ** [np.add.reduce] on a float64 array

    The reduction as NumPy's [DOUBLE_add] loop runs it on a contiguous
    one-dimensional array: the identity [0.0] of the addition, plus the
    pairwise sum of the elements ([DOUBLE_pairwise_sum]). Used to run the
    model. *)

(** The unrolled loop of the pairwise sum: each further block of eight
    elements is added to the eight running sums [r]. The running sums come
    back with what is left of the array. *)
Fixpoint add_blocks (blocks : nat) (r a : list float)
  : list float * list float :=
  match blocks with
  | O => (r, a)
  | S blocks =>
      add_blocks blocks (zip_with PrimFloat.add r (take 8 a)) (drop 8 a)
  end.

Definition PW_BLOCKSIZE : nat := 128.

(** [DOUBLE_pairwise_sum(a, n)]. Fewer than eight elements are added
    from left to right, starting from [-0.0]. Up to [PW_BLOCKSIZE] elements
    are added into eight running sums, which are then added in pairs; the
    elements after the last full block of eight follow from left to right.
    A longer array is cut in two near its middle, at a multiple of eight.
    [depth] bounds the number of cuts, and the length of the array is
    enough of them. The two [nan] stand in branches the C code does not
    have: there are always eight running sums, and [depth] does not run
    out. *)
Fixpoint pairwise_sum_upto (depth : nat) (a : list float) : float :=
  let n := length a in
  if (n <? 8)%nat then fold_left PrimFloat.add a neg_zero
  else if (n <=? PW_BLOCKSIZE)%nat then
    let '(r, rest) := add_blocks (n / 8 - 1)%nat (take 8 a) (drop 8 a) in
    match r with
    | [r0; r1; r2; r3; r4; r5; r6; r7] =>
        fold_left PrimFloat.add rest
          (((r0 + r1) + (r2 + r3)) + ((r4 + r5) + (r6 + r7)))%float
    | _ => nan
    end
  else
    match depth with
    | O => nan
    | S depth =>
        let n2 := (n / 2)%nat in
        let n2 := (n2 - n2 mod 8)%nat in
        (pairwise_sum_upto depth (take n2 a)
         + pairwise_sum_upto depth (drop n2 a))%float
    end.

Definition pairwise_sum (a : list float) : float :=
  pairwise_sum_upto (length a) a.

(** [np.add.reduce(a)] *)
Definition add_reduce (a : list float) : float := (0 + pairwise_sum a)%float.

Definition numpy_float64 : NumPy := {| np_sum := add_reduce |}.

(** ** class AnomalyDetector *)

Record AnomalyDetector : Type := Detector {
  window_size : Z;
  threshold : float;
  history : gmap string deque
}.

(** What [add_sample] returns: [None] stands for the triple
    [(None, None, None)], [Some (is_anomaly, z_score, mean)] for the two
    other return statements. *)
Definition sample_result : Type := option (bool * float * float).

Section Detector.
Context `{NumPy}.

(** [AnomalyDetector.__init__] *)
Definition init (window_size : Z) (threshold : float) : AnomalyDetector :=
  Detector window_size threshold ∅.

(** Lines 66-67: the window of a tag is created on first use. *)
Definition ensure_window (self : AnomalyDetector) (tag_name : string)
  : result AnomalyDetector :=
  match history self !! tag_name with
  | Some _ => Ok self
  | None =>
      match deque_new (window_size self) with
      | Raise e => Raise e
      | Ok d =>
          Ok (Detector (window_size self) (threshold self)
                (<[tag_name := d]> (history self)))
      end
  end.

(** Line 69: [self.history[tag_name].append(value)] *)
Definition push (self : AnomalyDetector) (tag_name : string) (value : float)
  : AnomalyDetector :=
  Detector (window_size self) (threshold self)
    (alter (fun d => deque_append d value) tag_name (history self)).

(** Lines 71-84, on the detector as lines 66-69 left it. *)
Definition evaluate (self : AnomalyDetector) (tag_name : string) (value : float)
  : result sample_result :=
  match history self !! tag_name with
  | None => Raise (KeyError tag_name)
  | Some window =>
      if len window <? window_size self / 2 then Ok None
      else
        let values := items window in
        let mean := np_mean values in
        let std := np_std values in
        if PrimFloat.eqb std 0%float then Ok (Some (false, 0%float, mean))
        else
          match true_divide (PrimFloat.abs (PrimFloat.sub value mean)) std with
          | Raise e => Raise e
          | Ok z_score =>
              let is_anomaly := PrimFloat.ltb (threshold self) z_score in
              Ok (Some (is_anomaly, z_score, mean))
          end
  end.

(** [AnomalyDetector.add_sample]: the detector after the call and what
    the call returned or raised. When the window cannot be created the
    detector is left as it was. *)
Definition add_sample (self : AnomalyDetector) (tag_name : string) (value : float)
  : AnomalyDetector * result sample_result :=
  match ensure_window self tag_name with
  | Raise e => (self, Raise e)
  | Ok self1 =>
      let self2 := push self1 tag_name value in
      (self2, evaluate self2 tag_name value)
  end.

End Detector.

(** The three outcomes the caller tells apart (lines 136-153): the triple
    of [None]s, a true [is_anomaly], a false one. *)
Inductive Classification : Type :=
| Insufficient
| Normal (z_score mean : float)
| Anomalous (z_score mean : float).

Definition classify_result (r : sample_result) : Classification :=
  match r with
  | None => Insufficient
  | Some (true, z_score, mean) => Anomalous z_score mean
  | Some (false, z_score, mean) => Normal z_score mean
  end.

(** The outcome of a call, read as the caller reads it. *)
Definition classification_of (r : result sample_result) : result Classification :=
  match r with
  | Ok r => Ok (classify_result r)
  | Raise e => Raise e
  end.

(** ** The polling loop of [main] *)

(** Builtins and clock-free configuration of the loop. [round(x, n)] is
    Python's own decimal rounding and stays a parameter. *)
Class Builtins : Type := { py_round : float -> Z -> float }.

Record Config : Type := {
  DEVICE_ID : string;
  WINDOW_SIZE : Z;
  ANOMALY_THRESHOLD : float
}.

(** One entry of [anomalies_detected]. *)
Record anomaly_info : Type := AnomalyInfo {
  info_tag : string;
  info_value : float;
  info_baseline : float;
  info_deviation : float;
  info_threshold : float
}.

(** The [alert] dictionary of lines 160-168. *)
Record Alert : Type := {
  messageType : string;
  deviceId : string;
  timestamp : string;
  anomalyCount : Z;
  totalAnomalies : Z;
  anomalies : list anomaly_info;
  severity : string
}.

(** A line printed by [log_json] (its own time stamp left out) with the
    keyword arguments that carry numbers. *)
Record log_entry : Type := LogEntry {
  level : string;
  message : string;
  component : string;
  extra : list (string * float)
}.

(** What the loop does to the outside: it prints a log line, or it calls
    [iot_client.send_message] on the serialised alert. *)
Inductive event : Type :=
| Logged (entry : log_entry)
| Sent (alert : Alert).

(** The variables of [main] that live across the statements of the loop. *)
Record loop_state : Type := LoopState {
  detector : AnomalyDetector;
  anomaly_count : Z;
  anomalies_detected : list anomaly_info;
  output : list event
}.

(** What the outside answers during one cycle: the clock, for every node
    in [nodes] its tag and the outcome of [node.get_value()], and the
    outcome of [iot_client.send_message] should it be called. *)
Record cycle_input : Type := CycleInput {
  now : string;
  reads : list (string * result float);
  delivery : result unit
}.

Section PollingLoop.
Context `{NumPy} `{Builtins}.
Variable cfg : Config.
(** [iot_client] is a connected client ([true]) or [None] ([false]). *)
Variable iot_client : bool.

Definition emit (st : loop_state) (ev : event) : loop_state :=
  LoopState (detector st) (anomaly_count st) (anomalies_detected st)
    (output st ++ [ev]).

Definition with_detector (st : loop_state) (d : AnomalyDetector) : loop_state :=
  LoopState d (anomaly_count st) (anomalies_detected st) (output st).

(** Line 156, the handler of the per-node [try]. *)
Definition log_read_error (st : loop_state) (tag_name : string) (e : exn)
  : loop_state :=
  emit st (Logged (LogEntry "ERROR"
    (String.append "Error reading "
       (String.append tag_name (String.append ": " (str_exn e))))
    "OPCUA" [])).

(** Lines 140-150, the branch taken on an anomaly. *)
Definition record_anomaly (st : loop_state) (tag_name : string)
    (value z_score baseline : float) : loop_state :=
  let anomaly_info :=
    AnomalyInfo tag_name (py_round value 3) (py_round baseline 3)
      (py_round z_score 2) (ANOMALY_THRESHOLD cfg) in
  emit
    (LoopState (detector st) (anomaly_count st + 1)
       (anomalies_detected st ++ [anomaly_info]) (output st))
    (Logged (LogEntry "WARNING"
       (String.append "ANOMALY detected on " tag_name) "Detector"
       [("value", value); ("z_score", z_score)])).

(** Lines 132-156, the body of [for node, tag_name in nodes]. *)
Definition poll_node (st : loop_state) (node : string * result float)
  : loop_state :=
  let '(tag_name, read) := node in
  match read with
  | Raise e => log_read_error st tag_name e
  | Ok value =>
      let '(d, r) := add_sample (detector st) tag_name value in
      let st := with_detector st d in
      match r with
      | Raise e => log_read_error st tag_name e
      | Ok r =>
          match classify_result r with
          | Insufficient => st
          | Anomalous z_score baseline =>
              record_anomaly st tag_name value z_score baseline
          | Normal _ _ => st
          end
      end
  end.

(** Lines 160-168. *)
Definition make_alert (st : loop_state) (timestamp : string) : Alert :=
  {| messageType := "anomalyAlert";
     deviceId := DEVICE_ID cfg;
     timestamp := timestamp;
     anomalyCount := Z.of_nat (length (anomalies_detected st));
     totalAnomalies := anomaly_count st;
     anomalies := anomalies_detected st;
     severity :=
       if Z.of_nat (length (anomalies_detected st)) <? 2
       then "warning" else "critical" |}.

(** Lines 158-175: the alert is built and sent when the batch is not
    empty and there is a client. *)
Definition send_alert (st : loop_state) (timestamp : string)
    (delivery : result unit) : loop_state :=
  match anomalies_detected st with
  | [] => st
  | _ :: _ =>
      if iot_client then
        let alert := make_alert st timestamp in
        let st := emit st (Sent alert) in
        match delivery with
        | Ok _ =>
            emit st (Logged (LogEntry "INFO"
              (String.append "Alert sent to IoT Hub (severity: "
                 (String.append (severity alert) ")"))
              "IoTHub" []))
        | Raise e =>
            emit st (Logged (LogEntry "ERROR"
              (String.append "Failed to send alert: " (str_exn e))
              "IoTHub" []))
        end
      else st
  end.

(** Lines 126-175, one turn of [while True]. *)
Definition cycle (st : loop_state) (i : cycle_input) : loop_state :=
  let st :=
    LoopState (detector st) (anomaly_count st) [] (output st) in
  let st := fold_left poll_node (reads i) st in
  send_alert st (now i) (delivery i).

(** Line 95 and line 123: the state in which the loop is entered. *)
Definition start : loop_state :=
  LoopState (init (WINDOW_SIZE cfg) (ANOMALY_THRESHOLD cfg)) 0 [] [].

(** The loop, for as many turns as there are inputs. *)
Definition run (st : loop_state) (inputs : list cycle_input) : loop_state :=
  fold_left cycle inputs st.

(** The alerts handed to the client, in the order of the calls. *)
Fixpoint alerts_sent (evs : list event) : list Alert :=
  match evs with
  | [] => []
  | Sent a :: evs => a :: alerts_sent evs
  | Logged _ :: evs => alerts_sent evs
  end.

End PollingLoop.

(** Feeding a detector a list of samples, oldest first; the outcomes of
    the calls are returned in the same order. *)
Fixpoint add_samples `{NumPy} (self : AnomalyDetector)
    (samples : list (string * float))
  : AnomalyDetector * list (result sample_result) :=
  match samples with
  | [] => (self, [])
  | (tag_name, value) :: samples =>
      let '(self, r) := add_sample self tag_name value in
      let '(self, rs) := add_samples self samples in
      (self, r :: rs)
  end.

(** The window [add_sample] appends to: the one in [history], or a fresh
    empty one. *)
Definition window_before (self : AnomalyDetector) (tag_name : string) : deque :=
  default (Deque (window_size self) []) (history self !! tag_name).

(** ** Vocabulary of the statements *)

(** The [n] most recent of the values [vs] (oldest first). *)
Definition most_recent (n : Z) (vs : list float) : list float :=
  drop (length vs - Z.to_nat n)%nat vs.

(** The values pushed for one tag by a list of samples, in arrival order. *)
Definition pushed (tag_name : string) (samples : list (string * float))
  : list float :=
  (filter (fun s => s.1 = tag_name) samples).*2.

(** The window of [tag_name] holds the most recent of the values [vs]
    pushed for it so far; a tag never pushed has no window. *)
Definition tracks (n : Z) (self : AnomalyDetector) (tag_name : string)
    (vs : list float) : Prop :=
  window_size self = n /\
  history self !! tag_name =
    match vs with
    | [] => None
    | _ :: _ => Some (Deque n (most_recent n vs))
    end.

(** What [deque(maxlen=n)] raises for a bound [n] it does not accept:
    [ValueError] for a negative [Py_ssize_t], [OverflowError] for an
    integer that is no [Py_ssize_t]. *)
Definition maxlen_refusal (n : Z) : exn :=
  if (PY_SSIZE_T_MIN <=? n) && (n <? 0)
  then ValueError "maxlen must be non-negative"
  else OverflowError "Python int too large to convert to C ssize_t".

(** Every window has the bound the detector was built with. *)
Definition well_formed (self : AnomalyDetector) : Prop :=
  forall tag_name w,
    history self !! tag_name = Some w -> maxlen w = window_size self.

(** The floats that are neither an infinity nor a NaN. *)
Definition SF_is_finite (x : spec_float) : bool :=
  match x with
  | S754_zero _ | S754_finite _ _ _ => true
  | S754_infinity _ | S754_nan => false
  end.

(** The payloads are in the order in which they were handed over. *)
Definition non_decreasing (l : list Alert) : Prop :=
  forall i j p1 p2,
    l !! i = Some p1 -> l !! j = Some p2 -> (i <= j)%nat ->
    totalAnomalies p1 <= totalAnomalies p2.

(** The line that reports a failed read. *)
Definition read_error_line (tag_name : string) (e : exn) : event :=
  Logged (LogEntry "ERROR"
    (String.append "Error reading "
       (String.append tag_name (String.append ": " (str_exn e))))
    "OPCUA" []).


(** The running total never falls behind a payload already sent. *)
Definition totals_bounded (st : loop_state) : Prop :=
  non_decreasing (alerts_sent (output st)) /\
  forall p, p ∈ alerts_sent (output st) ->
    totalAnomalies p <= anomaly_count st.

(** ** Running the model *)

Definition f72 : float := 72%float.
Definition f200 : float := 200%float.
(** The float64 nearest to one tenth. *)
Definition tenth : float := 0x1.999999999999ap-4%float.
(** The default of [ANOMALY_THRESHOLD]. *)
Definition f2_5 : float := 2.5%float.

(** The detector that [samples] leave behind, with the default
    threshold. *)
Definition feed (window_size : Z) (samples : list (string * float))
  : AnomalyDetector :=
  (@add_samples numpy_float64 (init window_size f2_5) samples).1.

(** [round] taken as the identity: the digits of the payload are not the
    concern of the runs below. *)
Definition no_rounding : Builtins := {| py_round := fun x _ => x |}.

(** The default configuration, on a device with some name. *)
Definition demo_config : Config :=
  {| DEVICE_ID := "ipc-01"; WINDOW_SIZE := 20; ANOMALY_THRESHOLD := f2_5 |}.

(** The three nodes of [MONITORED_TAGS] with what their reads give. *)
Definition readings (vibration temperature pressure : result float)
  : list (string * result float) :=
  [("Vibration"%string, vibration); ("Temperature"%string, temperature);
   ("Pressure"%string, pressure)].

Definition quiet : cycle_input :=
  CycleInput "t" (readings (Ok f72) (Ok f72) (Ok f72)) (Ok tt).
Definition one_spike : cycle_input :=
  CycleInput "t11" (readings (Ok f200) (Ok f72) (Ok f72)) (Ok tt).
Definition two_spikes : cycle_input :=
  CycleInput "t12" (readings (Ok f72) (Ok f200) (Ok f200))
    (Raise (UaError "hub down")).
Definition one_fails : cycle_input :=
  CycleInput "t11"
    (readings (Ok f200) (Raise (UaError "BadTimeout")) (Ok f72)) (Ok tt).

(** Ten quiet cycles fill half of every window. *)
Definition demo_warm_up : list cycle_input := repeat quiet 10.
Definition demo_inputs : list cycle_input :=
  demo_warm_up ++ [one_spike; two_spikes].

(** The loop with and without a client, on the default configuration. *)
Abbreviation demo_run iot_client inputs :=
  (@run numpy_float64 no_rounding demo_config iot_client
     (@start demo_config) inputs).
Abbreviation demo_cycle iot_client st i :=
  (@cycle numpy_float64 no_rounding demo_config iot_client st i).

(** ** Vocabulary of the further properties *)

(** The branch of line 139: the call returned a true [is_anomaly]. *)
Definition flagged (r : result sample_result) : bool :=
  match r with
  | Ok (Some (true, _, _)) => true
  | _ => false
  end.

(** The z-score a call reports, if it reports one. *)
Definition z_score_of (r : result sample_result) : option float :=
  match r with
  | Ok (Some (_, z_score, _)) => Some z_score
  | _ => None
  end.

(** The floats that are not below zero: the zeros, the positive numbers,
    plus infinity, and NaN. *)
Definition SF_not_negative (x : spec_float) : bool :=
  match x with
  | S754_zero _ | S754_nan => true
  | S754_infinity s | S754_finite s _ _ => negb s
  end.

(** The positive numbers, plus infinity, and NaN. *)
Definition SF_positive_or_nan (x : spec_float) : bool :=
  match x with
  | S754_zero _ => false
  | S754_nan => true
  | S754_infinity s | S754_finite s _ _ => negb s
  end.

(** The samples a cycle hands to the detector: the reads that succeeded,
    in the order of the nodes. *)
Definition successful (reads : list (string * result float))
  : list (string * float) :=
  omap (fun node =>
          match node.2 with
          | Ok value => Some (node.1, value)
          | Raise _ => None
          end) reads.

(** The anomalies a list of alerts reports, all together. *)
Definition total_count (l : list Alert) : Z :=
  foldr Z.add 0 (anomalyCount <$> l).

(** The line printed for a node when no window of bound [n] can be
    created: the error of the read, or the one [deque] raises. *)
Definition refused_line (n : Z) (node : string * result float) : event :=
  read_error_line node.1
    match node.2 with
    | Raise e => e
    | Ok _ => maxlen_refusal n
    end.

(** The entry of [anomalies_detected] for a sample and what [add_sample]
    answered on it: one entry when the answer reports an anomaly, none
    otherwise. *)
Definition batch_entry `{Builtins} (cfg : Config)
    (answered : (string * float) * result sample_result)
  : option anomaly_info :=
  match answered with
  | ((tag_name, value), Ok (Some (true, z_score, baseline))) =>
      Some (AnomalyInfo tag_name (py_round value 3) (py_round baseline 3)
              (py_round z_score 2) (ANOMALY_THRESHOLD cfg))
  | _ => None
  end.

(** The batch that feeding [samples] to the detector [self] gives: the
    entries of the calls that reported an anomaly, in the order of the
    calls. *)
Definition batch_of `{NumPy} `{Builtins} (cfg : Config)
    (self : AnomalyDetector) (samples : list (string * float))
  : list anomaly_info :=
  omap (batch_entry cfg) (zip samples (add_samples self samples).2).

(** The line that reports a failed delivery (line 175). *)
Definition delivery_error_line (e : exn) : event :=
  Logged (LogEntry "ERROR"
    (String.append "Failed to send alert: " (str_exn e)) "IoTHub" []).

(** With a client, the running total is what the alerts sent so far
    add up to, and so is the total of each alert when it was sent. *)
Definition totals_add_up (st : loop_state) : Prop :=
  anomaly_count st = total_count (alerts_sent (output st)) /\
  forall j a,
    alerts_sent (output st) !! j = Some a ->
    totalAnomalies a = total_count (take (S j) (alerts_sent (output st))).

(** ** The start of [main] *)

(** Lines 20-24: the address and the display name of every tag. *)
Definition MONITORED_TAGS : list (string * string) :=
  [("ns=2;s=ProductionLine/Vibration"%string, "Vibration"%string);
   ("ns=2;s=ProductionLine/Temperature"%string, "Temperature"%string);
   ("ns=2;s=ProductionLine/Pressure"%string, "Pressure"%string)].

(** What the outside answers while [main] starts: the connection string
    of the environment, the outcomes of
    [IoTHubDeviceClient.create_from_connection_string], of
    [iot_client.connect()] and of [client.connect()], and the outcome of
    [client.get_node] for every address. *)
Record startup : Type := Startup {
  IOT_HUB_CONNECTION_STRING : string;
  create_from_connection_string : result unit;
  iot_connect : result unit;
  opcua_connect : result unit;
  get_node : string -> result unit
}.

(** What the outside answers during one turn of the loop: the clock,
    [node.get_value()] for the node of every address, and
    [iot_client.send_message]. *)
Record turn : Type := Turn {
  utcnow : string;
  get_value : string -> result float;
  send_message : result unit
}.

Definition iot_hub_line (level message : string) : event :=
  Logged (LogEntry level message "IoTHub" []).

(** Lines 97-106: whether [iot_client] is an object after them, and what
    they print. The client is bound before [connect] is called, so it
    stays bound when [connect] raises. *)
Definition connect_iot_hub (env : startup) : bool * list event :=
  match IOT_HUB_CONNECTION_STRING env with
  | EmptyString =>
      (false,
       [iot_hub_line "WARNING"
          "No IoT Hub connection string. Alerts will be logged locally only."])
  | String _ _ =>
      match create_from_connection_string env with
      | Raise e =>
          (false,
           [iot_hub_line "WARNING"
              (String.append "Failed to connect to IoT Hub: " (str_exn e))])
      | Ok _ =>
          match iot_connect env with
          | Raise e =>
              (true,
               [iot_hub_line "WARNING"
                  (String.append "Failed to connect to IoT Hub: " (str_exn e))])
          | Ok _ => (true, [iot_hub_line "INFO" "Connected to Azure IoT Hub"])
          end
      end
  end.

(** Lines 114-121: the tags whose node could be obtained, and a line for
    every tag. *)
Fixpoint resolve_nodes (get_node : string -> result unit)
    (tags : list (string * string)) : list (string * string) * list event :=
  match tags with
  | [] => ([], [])
  | (tag_path, tag_name) :: tags =>
      let '(nodes, lines) := resolve_nodes get_node tags in
      match get_node tag_path with
      | Ok _ =>
          ((tag_path, tag_name) :: nodes,
           Logged (LogEntry "INFO" (String.append "Monitoring: " tag_name)
                     "OPCUA" []) :: lines)
      | Raise e =>
          (nodes,
           Logged (LogEntry "ERROR"
                     (String.append "Failed to get node "
                        (String.append tag_name
                           (String.append ": " (str_exn e))))
                     "OPCUA" []) :: lines)
      end
  end.

(** The reads of one turn, over the nodes that were obtained. *)
Definition cycle_input_of (nodes : list (string * string)) (t : turn)
  : cycle_input :=
  CycleInput (utcnow t)
    ((fun node => (node.2, get_value t node.1)) <$> nodes)
    (send_message t).

(** Lines 95-180 of [main], for as many turns of the loop as there are
    answers: the detector is built, the IoT Hub client is set up, the
    OPC-UA client connects (a failure is fatal: it is logged and the loop
    is not entered), the nodes are obtained, and the loop runs. *)
Definition main `{NumPy} `{Builtins} (cfg : Config) (env : startup)
    (turns : list turn) : loop_state :=
  let detector := init (WINDOW_SIZE cfg) (ANOMALY_THRESHOLD cfg) in
  let '(iot_client, iot_lines) := connect_iot_hub env in
  match opcua_connect env with
  | Raise e =>
      LoopState detector 0 []
        (iot_lines ++
         [Logged (LogEntry "ERROR"
                    (String.append "Fatal Error: " (str_exn e)) "System" [])])
  | Ok _ =>
      let '(nodes, node_lines) := resolve_nodes (get_node env) MONITORED_TAGS in
      run cfg iot_client
        (LoopState detector 0 []
           (iot_lines ++
            Logged (LogEntry "INFO" "Connected to OPC-UA server" "OPCUA" [])
              :: node_lines))
        (cycle_input_of nodes <$> turns)
  end.

(** ** Running [main] *)

(** A start at which everything answers. *)
Definition demo_startup : startup :=
  Startup "HostName=hub.example;DeviceId=ipc-01" (Ok tt) (Ok tt) (Ok tt)
    (fun _ => Ok tt).

Definition quiet_turn : turn := Turn "t" (fun _ => Ok f72) (Ok tt).
Definition spike_turn : turn :=
  Turn "t11"
    (fun tag_path =>
       if String.eqb tag_path "ns=2;s=ProductionLine/Vibration"
       then Ok f200 else Ok f72)
    (Ok tt).
Definition demo_turns : list turn := repeat quiet_turn 10 ++ [spike_turn].

(** A configuration with a window size below zero. *)
Definition negative_config : Config :=
  {| DEVICE_ID := "ipc-01"; WINDOW_SIZE := -1; ANOMALY_THRESHOLD := f2_5 |}.

Abbreviation demo_main :=
  (@main numpy_float64 no_rounding demo_config demo_startup demo_turns).

(** * Properties *)

(** ** The window *)

Lemma deque_append_maxlen d x : maxlen (deque_append d x) = maxlen d.
Proof. unfold deque_append. by case_match. Qed.

Lemma deque_append_items d x :
  items (deque_append d x) =
    if maxlen d <? Z.of_nat (length (items d ++ [x]))
    then tail (items d ++ [x]) else items d ++ [x].
Proof. unfold deque_append. by case_match. Qed.

Section DetectorFacts.
Context `{NumPy}.

Lemma ensure_window_seen self tag_name old :
  history self !! tag_name = Some old -> ensure_window self tag_name = Ok self.
Proof. intros Hold. unfold ensure_window. by rewrite Hold. Qed.

Lemma deque_new_accepted n :
  0 <= n <= PY_SSIZE_T_MAX -> deque_new n = Ok (Deque n []).
Proof.
  intros Hn. unfold deque_new.
  destruct (Z.ltb_spec n PY_SSIZE_T_MIN); [lia |].
  destruct (Z.ltb_spec PY_SSIZE_T_MAX n); [lia |].
  destruct (Z.ltb_spec n 0); [lia | done].
Qed.

Lemma deque_new_refused n :
  ~ 0 <= n <= PY_SSIZE_T_MAX -> deque_new n = Raise (maxlen_refusal n).
Proof.
  intros Hn. unfold deque_new, maxlen_refusal.
  destruct (Z.ltb_spec n PY_SSIZE_T_MIN), (Z.ltb_spec PY_SSIZE_T_MAX n),
    (Z.ltb_spec n 0), (Z.leb_spec PY_SSIZE_T_MIN n); simpl; try done; lia.
Qed.

Lemma maxlen_refusal_not_division n msg :
  maxlen_refusal n <> FloatingPointError msg.
Proof. unfold maxlen_refusal. by destruct (_ && _). Qed.

Lemma ensure_window_fresh self tag_name :
  history self !! tag_name = None -> 0 <= window_size self <= PY_SSIZE_T_MAX ->
  ensure_window self tag_name =
    Ok (Detector (window_size self) (threshold self)
          (<[tag_name := Deque (window_size self) []]> (history self))).
Proof.
  intros Hnone Hfits. unfold ensure_window.
  by rewrite Hnone, deque_new_accepted.
Qed.

Lemma ensure_window_refused self tag_name :
  history self !! tag_name = None ->
  ~ 0 <= window_size self <= PY_SSIZE_T_MAX ->
  ensure_window self tag_name = Raise (maxlen_refusal (window_size self)).
Proof.
  intros Hnone Hout. unfold ensure_window.
  by rewrite Hnone, deque_new_refused.
Qed.

(** The call either leaves the detector alone and raises (an unseen tag
    under a [window_size] that [deque] refuses), or replaces the window of
    the tag by the old one with the value appended and evaluates the
    outcome. *)
Lemma add_sample_cases self tag_name value :
  (history self !! tag_name = None /\
   ~ 0 <= window_size self <= PY_SSIZE_T_MAX /\
   add_sample self tag_name value =
     (self, Raise (maxlen_refusal (window_size self))))
  \/
  (let w := deque_append (window_before self tag_name) value in
   let self' :=
     Detector (window_size self) (threshold self)
       (<[tag_name := w]> (history self)) in
   (is_Some (history self !! tag_name) \/
    0 <= window_size self <= PY_SSIZE_T_MAX) /\
   add_sample self tag_name value = (self', evaluate self' tag_name value)).
Proof.
  unfold add_sample, window_before.
  destruct (history self !! tag_name) as [old|] eqn:Hold.
  - right. simpl. split; [eauto |].
    rewrite (ensure_window_seen _ _ _ Hold). unfold push. simpl.
    do 2 f_equal; f_equal.
    + apply map_eq. intros i. rewrite lookup_alter, lookup_insert.
      repeat case_decide; subst; try done. by rewrite Hold.
    + apply map_eq. intros i. rewrite lookup_alter, lookup_insert.
      repeat case_decide; subst; try done. by rewrite Hold.
  - destruct (decide (0 <= window_size self <= PY_SSIZE_T_MAX)) as [Hfits|Hout].
    + right. simpl. split; [eauto |].
      rewrite (ensure_window_fresh _ _ Hold Hfits). unfold push. simpl.
      assert (alter (λ d : deque, deque_append d value) tag_name
                (<[tag_name:=Deque (window_size self) []]> (history self))
              = <[tag_name:=deque_append (Deque (window_size self) []) value]>
                  (history self)) as ->; [| done].
      apply map_eq. intros i. rewrite lookup_alter, !lookup_insert.
      repeat case_decide; subst; done.
    + left. by rewrite (ensure_window_refused _ _ Hold Hout).
Qed.

(** When the call leaves a window for the tag, that window is the one
    before the call with the value appended. *)
Lemma add_sample_window self tag_name value self' r w :
  add_sample self tag_name value = (self', r) ->
  history self' !! tag_name = Some w ->
  w = deque_append (window_before self tag_name) value /\
  self' = Detector (window_size self) (threshold self)
            (<[tag_name := w]> (history self)) /\
  r = evaluate self' tag_name value.
Proof.
  intros Hcall Hw.
  destruct (add_sample_cases self tag_name value)
    as [(Hnone & _ & He) | [_ Hrun]].
  - rewrite He in Hcall. inversion Hcall; subst. congruence.
  - simpl in Hrun. rewrite Hrun in Hcall. inversion Hcall; subst; clear Hcall.
    simpl in Hw. rewrite lookup_insert_eq in Hw. inversion Hw; subst.
    done.
Qed.

End DetectorFacts.

(** ** The z-score test *)

Section Classification.
Context `{NumPy}.

(** [np.std] written out: the two passes over the array are one. *)
Lemma np_std_unfold values :
  np_std values =
    PrimFloat.sqrt
      (np_sum (map (fun v => (v - np_mean values) * (v - np_mean values))%float
                 values)
       / float_of_count (length values))%float.
Proof. unfold np_std. by rewrite map_map. Qed.

(** The guard of line 78 keeps zero divisors away from line 81. *)
Lemma evaluate_no_zero_division self tag_name value msg :
  evaluate self tag_name value <> Raise (FloatingPointError msg).
Proof.
  unfold evaluate, true_divide.
  destruct (history self !! tag_name) as [w|]; [| done].
  destruct (len w <? window_size self / 2); [done |].
  by destruct (PrimFloat.eqb (np_std (items w)) 0).
Qed.

Lemma add_sample_no_zero_division self tag_name value msg :
  (add_sample self tag_name value).2 <> Raise (FloatingPointError msg).
Proof.
  destruct (add_sample_cases self tag_name value)
    as [(_ & _ & ->) | [_ Hrun]].
  - simpl. intros [= Hrefused]. by eapply maxlen_refusal_not_division.
  - simpl in Hrun. rewrite Hrun. simpl. apply evaluate_no_zero_division.
Qed.

(** C2. Whenever the window of the signal, after the value has been
    appended, holds fewer than [window_size // 2] samples, the call
    returns the triple of [None]s ([Insufficient]), whatever the value. *)
Theorem add_sample_insufficient self tag_name value self' r w :
  add_sample self tag_name value = (self', r) ->
  history self' !! tag_name = Some w ->
  len w < window_size self / 2 ->
  r = Ok None /\ classification_of r = Ok Insufficient.
Proof.
  intros Hcall Hw Hshort.
  destruct (add_sample_window _ _ _ _ _ _ Hcall Hw) as (_ & Hself' & ->).
  assert (evaluate self' tag_name value = Ok None) as ->; [| done].
  unfold evaluate. rewrite Hw.
  replace (window_size self') with (window_size self) by (by subst self').
  destruct (Z.ltb_spec (len w) (window_size self / 2)); [done | lia].
Qed.

(** C1. When the window after the insertion holds at least
    [window_size // 2] samples and its standard deviation is not zero,
    the call computes the mean and the population standard deviation of
    that window (the value just appended included), the z-score
    [abs(value - mean) / std], and returns [is_anomaly] true exactly when
    the z-score exceeds the threshold, together with that z-score and
    mean. *)
Theorem add_sample_z_score self tag_name value self' r w :
  add_sample self tag_name value = (self', r) ->
  history self' !! tag_name = Some w ->
  window_size self / 2 <= len w ->
  let values := items w in
  let count := float_of_count (length values) in
  let mean := (np_sum values / count)%float in
  let std :=
    PrimFloat.sqrt
      (np_sum (map (fun v => (v - mean) * (v - mean))%float values) / count) in
  PrimFloat.eqb std 0 = false ->
  let z := (PrimFloat.abs (value - mean) / std)%float in
  w = deque_append (window_before self tag_name) value /\
  r = Ok (Some (PrimFloat.ltb (threshold self) z, z, mean)) /\
  classification_of r =
    Ok (if PrimFloat.ltb (threshold self) z then Anomalous z mean
        else Normal z mean).
Proof.
  intros Hcall Hw Hfull values count mean std Hstd z.
  destruct (add_sample_window _ _ _ _ _ _ Hcall Hw) as (Hpost & Hself' & Hr).
  assert (np_std values = std) as Hnp by apply np_std_unfold.
  assert (r = Ok (Some (PrimFloat.ltb (threshold self) z, z, mean))) as ->.
  { rewrite Hr. unfold evaluate, true_divide. rewrite Hw.
    replace (window_size self') with (window_size self) by (by subst self').
    replace (threshold self') with (threshold self) by (by subst self').
    destruct (Z.ltb_spec (len w) (window_size self / 2)); [lia |].
    fold values. rewrite Hnp, Hstd. done. }
  split; [done |]. split; [done |].
  simpl. by destruct (PrimFloat.ltb _ _).
Qed.

(** X15. When the window after the insertion holds at least
    [window_size // 2] samples and the standard deviation that [np.std]
    computes for it compares equal to zero, the call returns [is_anomaly]
    false with z-score 0 and the mean of the window ([Normal]); and on no
    input at all does the call divide by a zero standard deviation. *)
Theorem add_sample_flat self tag_name value self' r :
  add_sample self tag_name value = (self', r) ->
  (forall msg, r <> Raise (FloatingPointError msg)) /\
  (forall w,
     history self' !! tag_name = Some w ->
     window_size self / 2 <= len w ->
     PrimFloat.eqb (np_std (items w)) 0 = true ->
     r = Ok (Some (false, 0%float, np_mean (items w))) /\
     classification_of r = Ok (Normal 0 (np_mean (items w)))).
Proof.
  intros Hcall. split.
  - intros msg. pose proof (add_sample_no_zero_division self tag_name value msg).
    by rewrite Hcall in *.
  - intros w Hw Hfull Hstd.
    destruct (add_sample_window _ _ _ _ _ _ Hcall Hw) as (_ & Hself' & ->).
    assert (evaluate self' tag_name value
            = Ok (Some (false, 0%float, np_mean (items w)))) as ->; [| done].
    unfold evaluate. rewrite Hw.
    replace (window_size self') with (window_size self) by (by subst self').
    destruct (Z.ltb_spec (len w) (window_size self / 2)); [lia |].
    by rewrite Hstd.
Qed.

(** C10. The call touches the window of its own tag only: the windows
    of all other tags, [window_size] and [threshold] are as before, and
    every tag that had a window still has one. *)
Theorem add_sample_frame self tag_name value :
  let self' := (add_sample self tag_name value).1 in
  window_size self' = window_size self /\
  threshold self' = threshold self /\
  (forall other, other <> tag_name ->
     history self' !! other = history self !! other) /\
  (forall any, is_Some (history self !! any) ->
     is_Some (history self' !! any)).
Proof.
  destruct (add_sample_cases self tag_name value)
    as [(_ & _ & ->) | [_ Hrun]]; simpl.
  - done.
  - simpl in Hrun. rewrite Hrun. simpl. repeat split.
    + intros other Hne. by rewrite lookup_insert_ne.
    + intros any Hany. rewrite lookup_insert. by case_decide.
Qed.

End Classification.

(** ** The sliding window *)

Lemma most_recent_length n vs :
  0 <= n ->
  Z.of_nat (length (most_recent n vs)) = Z.min (Z.of_nat (length vs)) n.
Proof. intros Hn. unfold most_recent. rewrite length_drop. lia. Qed.

(** Appending to a window that holds the [n] most recent of [vs] leaves
    the [n] most recent of [vs ++ [x]]. *)
Lemma deque_append_most_recent n vs x :
  0 <= n ->
  deque_append (Deque n (most_recent n vs)) x = Deque n (most_recent n (vs ++ [x])).
Proof.
  intros Hn. unfold deque_append, most_recent. simpl.
  rewrite !length_app, length_drop. simpl.
  destruct (Z.ltb_spec n (Z.of_nat (length vs - (length vs - Z.to_nat n) + 1))).
  - f_equal.
    replace (length vs + 1 - Z.to_nat n)%nat
      with (S (length vs - Z.to_nat n)) by lia.
    destruct (decide (n = 0)) as [-> | Hn0].
    + simpl. rewrite Nat.sub_0_r, drop_all. simpl.
      by rewrite drop_ge by (rewrite length_app; simpl; lia).
    + rewrite drop_app_le by lia.
      destruct (drop (length vs - Z.to_nat n) vs) as [|y l] eqn:Hdrop.
      * apply (f_equal length) in Hdrop. rewrite length_drop in Hdrop.
        simpl in Hdrop. lia.
      * simpl. f_equal.
        change l with (drop 1 (y :: l)). rewrite <- Hdrop, drop_drop.
        f_equal. lia.
  - f_equal.
    replace (length vs - Z.to_nat n)%nat with 0%nat by lia.
    replace (length vs + 1 - Z.to_nat n)%nat with 0%nat by lia.
    done.
Qed.

Lemma pushed_app tag_name s1 s2 :
  pushed tag_name (s1 ++ s2) = pushed tag_name s1 ++ pushed tag_name s2.
Proof. unfold pushed. by rewrite filter_app, fmap_app. Qed.

Lemma pushed_cons tag_name t v samples :
  pushed tag_name ((t, v) :: samples) =
    if decide (t = tag_name) then v :: pushed tag_name samples
    else pushed tag_name samples.
Proof.
  unfold pushed. rewrite filter_cons. simpl. by case_decide.
Qed.

Section Windows.
Context `{NumPy}.

Lemma evaluate_ok self tag_name value :
  is_Some (history self !! tag_name) ->
  is_ok (evaluate self tag_name value) = true.
Proof.
  intros [w Hw]. unfold evaluate, true_divide. rewrite Hw.
  destruct (len w <? window_size self / 2); [done |].
  by destruct (PrimFloat.eqb (np_std (items w)) 0).
Qed.

Lemma add_sample_ok self tag_name value :
  0 <= window_size self <= PY_SSIZE_T_MAX ->
  is_ok (add_sample self tag_name value).2 = true.
Proof.
  intros Hfits.
  destruct (add_sample_cases self tag_name value)
    as [(_ & Hout & _) | [_ Hrun]]; [done |].
  simpl in Hrun. rewrite Hrun. simpl. apply evaluate_ok. simpl.
  rewrite lookup_insert_eq. eauto.
Qed.

Lemma tracks_window_before n self tag_name vs :
  tracks n self tag_name vs ->
  window_before self tag_name = Deque n (most_recent n vs).
Proof.
  intros [Hn Hw]. unfold window_before. rewrite Hw, Hn.
  by destruct vs.
Qed.

Lemma add_sample_tracks n self tag_name vs t v :
  0 <= n <= PY_SSIZE_T_MAX -> tracks n self tag_name vs ->
  tracks n (add_sample self t v).1 tag_name
    (if decide (t = tag_name) then vs ++ [v] else vs).
Proof.
  intros Hfits Htr. pose proof Htr as [Hn Hw].
  destruct (add_sample_cases self t v)
    as [(_ & Hout & _) | [_ Hrun]]; [lia |].
  simpl in Hrun. rewrite Hrun. simpl. split; [done |]. simpl.
  case_decide as Ht.
  - subst t. rewrite lookup_insert_eq.
    rewrite (tracks_window_before _ _ _ _ Htr).
    rewrite deque_append_most_recent by lia.
    by destruct vs.
  - by rewrite lookup_insert_ne.
Qed.

Lemma add_samples_tracks n samples : forall self tag_name vs,
  0 <= n <= PY_SSIZE_T_MAX -> tracks n self tag_name vs ->
  tracks n (add_samples self samples).1 tag_name
    (vs ++ pushed tag_name samples) /\
  Forall (fun r => is_ok r = true) (add_samples self samples).2.
Proof.
  induction samples as [|[t v] samples IH]; intros self tag_name vs Hpos Htr.
  - simpl. by rewrite app_nil_r.
  - simpl.
    pose proof (add_sample_tracks _ _ _ _ t v Hpos Htr) as Hstep.
    pose proof (add_sample_ok self t v) as Hok.
    destruct (add_sample self t v) as [self1 r] eqn:Hcall. simpl in *.
    destruct (IH self1 tag_name _ Hpos Hstep) as [Htr' Hoks].
    destruct (add_samples self1 samples) as [self2 rs]. simpl in *.
    split.
    + rewrite pushed_cons. case_decide; [| done].
      by rewrite <- app_assoc in Htr'.
    + constructor; [| done]. apply Hok. destruct Htr as [-> _]. done.
Qed.

Lemma add_sample_refused self tag_name value :
  ~ 0 <= window_size self <= PY_SSIZE_T_MAX -> history self = ∅ ->
  add_sample self tag_name value =
    (self, Raise (maxlen_refusal (window_size self))).
Proof.
  intros Hout Hempty.
  destruct (add_sample_cases self tag_name value)
    as [(_ & _ & ->) | [Hex _]]; [done |].
  rewrite Hempty, lookup_empty in Hex.
  destruct Hex as [[? ?] | ?]; done.
Qed.

Lemma add_samples_refused samples : forall self,
  ~ 0 <= window_size self <= PY_SSIZE_T_MAX -> history self = ∅ ->
  (add_samples self samples).1 = self.
Proof.
  induction samples as [|[t v] samples IH]; intros self Hout Hempty; [done |].
  simpl. rewrite add_sample_refused by done.
  specialize (IH self Hout Hempty). by destruct (add_samples self samples).
Qed.

(** C4. In a detector built with [window_size >= 1], after any finite
    sequence of calls, the window of every tag holds exactly the
    [window_size] most recent of the values pushed for that tag, in arrival
    order, oldest first; its length is the smaller of the number of pushes
    and [window_size]. A tag has no window only if nothing was pushed for
    it, or if [window_size] is no [Py_ssize_t], in which case [deque]
    creates no window at all; otherwise no call fails. *)
Theorem window_most_recent ws th samples tag_name :
  1 <= ws ->
  let after := add_samples (init ws th) samples in
  let vs := pushed tag_name samples in
  (ws <= PY_SSIZE_T_MAX -> Forall (fun r => is_ok r = true) after.2) /\
  match history after.1 !! tag_name with
  | None => vs = [] \/ PY_SSIZE_T_MAX < ws
  | Some w =>
      ws <= PY_SSIZE_T_MAX /\
      vs <> [] /\
      maxlen w = ws /\
      items w = drop (length vs - Z.to_nat ws)%nat vs /\
      len w = Z.min (Z.of_nat (length vs)) ws
  end.
Proof.
  intros Hws after vs.
  destruct (decide (ws <= PY_SSIZE_T_MAX)) as [Hfits | Hout].
  - assert (tracks ws (init ws th) tag_name []) as Htr0 by done.
    destruct (add_samples_tracks ws samples _ _ _ ltac:(lia) Htr0)
      as [[_ Hw] Hok].
    split; [done |]. fold after in Hw. simpl in Hw. fold vs in Hw.
    rewrite Hw. destruct vs as [|v vs'] eqn:Hvs; [by left |].
    repeat split; [done | done |].
    unfold len. simpl items. apply most_recent_length. lia.
  - split; [done |]. subst after.
    rewrite add_samples_refused by (simpl; done || lia).
    simpl. rewrite lookup_empty. right. lia.
Qed.

Lemma add_sample_well_formed self tag_name value :
  well_formed self -> well_formed (add_sample self tag_name value).1.
Proof.
  intros Hwf.
  destruct (add_sample_cases self tag_name value)
    as [(_ & _ & ->) | [_ Hrun]]; [done |].
  simpl in Hrun. rewrite Hrun. simpl. intros t w. simpl.
  rewrite lookup_insert. case_decide as Ht.
  - intros [= <-]. rewrite deque_append_maxlen. unfold window_before.
    destruct (history self !! tag_name) as [old|] eqn:Hold; simpl; [| done].
    by apply (Hwf tag_name).
  - apply Hwf.
Qed.

Lemma add_sample_config self tag_name value :
  window_size (add_sample self tag_name value).1 = window_size self /\
  threshold (add_sample self tag_name value).1 = threshold self.
Proof.
  destruct (add_sample_cases self tag_name value)
    as [(_ & _ & ->) | [_ Hrun]]; [done |].
  simpl in Hrun. by rewrite Hrun.
Qed.

Lemma add_samples_well_formed samples : forall self,
  well_formed self ->
  well_formed (add_samples self samples).1 /\
  window_size (add_samples self samples).1 = window_size self /\
  threshold (add_samples self samples).1 = threshold self.
Proof.
  induction samples as [|[t v] samples IH]; intros self Hwf; [done |].
  simpl.
  pose proof (add_sample_well_formed self t v Hwf) as Hwf1.
  pose proof (add_sample_config self t v) as (Hws & Hth).
  destruct (add_sample self t v) as [self1 r]. simpl in *.
  destruct (IH self1 Hwf1) as (Hwf2 & Hws2 & Hth2).
  destruct (add_samples self1 samples) as [self2 rs]. simpl in *.
  split; [done |]. split; congruence.
Qed.

(** After an append a window is empty only if its bound is zero. *)
Lemma deque_append_len_lower d x :
  Z.min 1 (maxlen d) <= len (deque_append d x).
Proof.
  unfold len. rewrite deque_append_items, length_app. simpl.
  destruct (Z.ltb_spec (maxlen d) (Z.of_nat (length (items d) + 1))).
  - destruct (items d); simpl in *; [lia |].
    rewrite length_app. simpl. lia.
  - rewrite length_app. simpl. lia.
Qed.

End Windows.

(** ** Facts of binary64 arithmetic *)

Section Binary64.

Lemma fexp_eq z : fexp 53 1024 z = Z.max (z - 53) (-1074).
Proof. reflexivity. Qed.

Lemma shr_fexp_canonical m e :
  fexp 53 1024 (Zdigits2 m + e) = e ->
  shr_fexp 53 1024 m e loc_Exact = (Build_shr_record m false false, e).
Proof. intros Hc. unfold shr_fexp. rewrite Hc, Z.sub_diag. done. Qed.

(** Rounding leaves a canonical mantissa alone. *)
Lemma binary_round_aux_canonical s m e :
  fexp 53 1024 (Z.pos (digits2_pos m) + e) = e -> e <= 971 ->
  binary_round_aux 53 1024 s (Z.pos m) e loc_Exact = S754_finite s m e.
Proof.
  intros Hc Hb. unfold binary_round_aux.
  rewrite shr_fexp_canonical by exact Hc. simpl.
  rewrite shr_fexp_canonical by exact Hc. simpl.
  destruct (Z.leb_spec e (1024 - 53)); [done | lia].
Qed.

(** Rounding [2m * 2^(e-1)] for a full mantissa [m] gives [m * 2^e]. *)
Lemma binary_round_aux_double s m e :
  Z.pos (digits2_pos m) = 53 -> -1074 <= e -> e <= 971 ->
  binary_round_aux 53 1024 s (Z.pos m~0) (e - 1) loc_Exact = S754_finite s m e.
Proof.
  intros Hd Hlo Hb. unfold binary_round_aux.
  assert (shr_fexp 53 1024 (Z.pos m~0) (e - 1) loc_Exact
          = (Build_shr_record (Z.pos m) false false, e)) as ->.
  { unfold shr_fexp. simpl Zdigits2. rewrite Pos2Z.inj_succ, Hd, fexp_eq.
    replace (Z.max (Z.succ 53 + (e - 1) - 53) (-1074) - (e - 1)) with 1 by lia.
    simpl. f_equal. lia. }
  simpl. rewrite shr_fexp_canonical; simpl.
  - destruct (Z.leb_spec e (1024 - 53)); [done | lia].
  - rewrite Hd, fexp_eq. lia.
Qed.

Lemma div_eucl_shiftl m n k :
  n = 52 + k -> 0 <= k ->
  IntDef.Z.div_eucl (Z.shiftl (Z.pos m) n) 4503599627370496
  = (Z.pos m * 2 ^ k, 0).
Proof.
  intros -> Hk. change IntDef.Z.div_eucl with Z.div_eucl.
  pose proof (Z.div_eucl_eq (Z.shiftl (Z.pos m) (52 + k)) 4503599627370496
                ltac:(done)) as Heq.
  pose proof (Z.mod_pos_bound (Z.shiftl (Z.pos m) (52 + k)) 4503599627370496
                ltac:(done)) as Hbd.
  unfold Z.modulo in Hbd.
  destruct (Z.div_eucl (Z.shiftl (Z.pos m) (52 + k)) 4503599627370496) as [q r].
  rewrite Z.shiftl_mul_pow2, Z.pow_add_r in Heq by lia.
  change (2 ^ 52) with 4503599627370496 in Heq.
  assert (0 < 2 ^ k) by (apply Z.pow_pos_nonneg; lia).
  f_equal; nia.
Qed.

Lemma SF64div_one x :
  valid_binary x = true ->
  SF64div x (S754_finite false 4503599627370496 (-52)) = x.
Proof.
  destruct x as [s|s| |s m e]; intros Hv;
    [by destruct s | by destruct s | done |].
  unfold SF64div, SFdiv.
  simpl in Hv. unfold bounded, canonical_mantissa in Hv.
  apply andb_prop in Hv as [Hc Hb]. apply Z.eqb_eq in Hc. apply Z.leb_le in Hb.
  unfold prec, emax in *. rewrite xorb_false_r.
  unfold SFdiv_core_binary.
  change (Zdigits2 4503599627370496) with 53.
  change (Zdigits2 (Z.pos m)) with (Z.pos (digits2_pos m)).
  rewrite !fexp_eq. rewrite fexp_eq in Hc.
  destruct (decide (e = -1074)) as [He | He].
  - replace (Z.min (Z.max (Z.pos (digits2_pos m) + e - (53 + -52) - 53) (-1074))
               (e - -52)) with e by lia.
    replace (e - -52 - e) with 52 by lia. cbv iota.
    rewrite (div_eucl_shiftl m 52 0) by done.
    change (new_location 4503599627370496 0) with loc_Exact.
    rewrite Z.mul_1_r.
    apply binary_round_aux_canonical; [rewrite fexp_eq |]; lia.
  - assert (Z.pos (digits2_pos m) = 53) as Hd by lia.
    replace (Z.min (Z.max (Z.pos (digits2_pos m) + e - (53 + -52) - 53) (-1074))
               (e - -52)) with (e - 1) by lia.
    replace (e - -52 - (e - 1)) with 53 by lia. cbv iota.
    rewrite (div_eucl_shiftl m 53 1) by done.
    change (new_location 4503599627370496 0) with loc_Exact.
    replace (Z.pos m * 2 ^ 1) with (Z.pos m~0) by lia.
    apply binary_round_aux_double; lia.
Qed.

(** Dividing by one is exact, for every float. *)
Lemma div_one x : (x / 1)%float = x.
Proof.
  apply Prim2SF_inj. rewrite FloatAxioms.div_spec.
  change (Prim2SF 1) with (S754_finite false 4503599627370496 (-52)).
  apply SF64div_one, Prim2SF_valid.
Qed.

Lemma SFcompare_refl x :
  SFcompare x x = match x with S754_nan => None | _ => Some Eq end.
Proof.
  destruct x as [s|s| |s m e]; simpl; [by destruct s | by destruct s | done |].
  destruct s; by rewrite Z.compare_refl, Pos.compare_cont_refl.
Qed.

Lemma is_finite_spec x : is_finite x = SF_is_finite (Prim2SF x).
Proof.
  unfold is_finite, is_nan, is_infinity.
  rewrite !FloatAxioms.eqb_spec, FloatAxioms.abs_spec.
  change (Prim2SF infinity) with (S754_infinity false).
  unfold SFeqb. rewrite SFcompare_refl.
  by destruct (Prim2SF x) as [s|s| |s m e].
Qed.

(** [x - x] is [+0.0] for a finite [x] and NaN otherwise. *)
Lemma sub_self x : (x - x)%float = if is_finite x then 0%float else nan.
Proof.
  apply Prim2SF_inj. rewrite FloatAxioms.sub_spec, is_finite_spec.
  destruct (Prim2SF x) as [s|s| |s m e]; simpl;
    [by destruct s | by destruct s | done |].
  unfold SF64sub, SFsub. by rewrite Z.sub_diag.
Qed.

Lemma neg_zero_add x : (neg_zero + x)%float = x.
Proof.
  apply Prim2SF_inj. rewrite FloatAxioms.add_spec.
  change (Prim2SF neg_zero) with (S754_zero true).
  destruct (Prim2SF x) as [s|s| |s m e]; simpl; try done. by destruct s.
Qed.

(** Nothing is below NaN. *)
Lemma ltb_nan_r x : (x <? nan)%float = false.
Proof.
  rewrite FloatAxioms.ltb_spec. change (Prim2SF nan) with S754_nan.
  unfold SFltb. by destruct (Prim2SF x) as [s|s| |s m e].
Qed.

Lemma sub_nan_r x : (x - nan)%float = nan.
Proof.
  apply Prim2SF_inj. rewrite FloatAxioms.sub_spec.
  change (Prim2SF nan) with S754_nan.
  by destruct (Prim2SF x) as [s|s| |s m e].
Qed.

Lemma div_nan_r x : (x / nan)%float = nan.
Proof.
  apply Prim2SF_inj. rewrite FloatAxioms.div_spec.
  change (Prim2SF nan) with S754_nan.
  by destruct (Prim2SF x) as [s|s| |s m e].
Qed.

(** Adding [+0.0] changes [-0.0] only. *)
Lemma zero_add_cases x :
  (0 + x)%float = x \/ x = neg_zero /\ (0 + x)%float = 0%float.
Proof.
  destruct (Prim2SF x) as [[|]|s| |s m e] eqn:Hx.
  - right. split; apply Prim2SF_inj; [done |].
    by rewrite FloatAxioms.add_spec, Hx.
  - left. apply Prim2SF_inj. by rewrite FloatAxioms.add_spec, Hx.
  - left. apply Prim2SF_inj. by rewrite FloatAxioms.add_spec, Hx.
  - left. apply Prim2SF_inj. by rewrite FloatAxioms.add_spec, Hx.
  - left. apply Prim2SF_inj. by rewrite FloatAxioms.add_spec, Hx.
Qed.

(** The unrolled loop keeps its eight running sums. *)
Lemma add_blocks_eight blocks : forall r a,
  length r = 8%nat -> (8 * blocks <= length a)%nat ->
  length (add_blocks blocks r a).1 = 8%nat.
Proof.
  induction blocks as [|blocks IH]; intros r a Hr Ha; [done |].
  cbn [add_blocks]. apply IH.
  - rewrite length_zip_with, length_take. lia.
  - rewrite length_drop. lia.
Qed.

(** The reduction of a one-element array: the identity plus the
    element. *)
Lemma add_reduce_single x : add_reduce [x] = (0 + x)%float.
Proof.
  unfold add_reduce, pairwise_sum. cbn [length pairwise_sum_upto].
  change (1 <? 8)%nat with true. cbv iota. cbn [fold_left].
  by rewrite neg_zero_add.
Qed.

End Binary64.

(** ** A window of one sample *)

Section FirstSample.
Context `{NumPy}.
(** The reduction of a one-element array is its element, to which the
    identity [0.0] of the addition may have been added. *)
Hypothesis np_sum_single :
  forall x, np_sum [x] = x \/ np_sum [x] = (0 + x)%float.

Lemma np_mean_sum_single x : np_mean [x] = np_sum [x].
Proof.
  unfold np_mean. change (float_of_count (length [x])) with 1%float.
  apply div_one.
Qed.

(** The mean of one sample is the sample, but for [-0.0], whose mean may
    be [+0.0]. *)
Lemma np_mean_single x :
  np_mean [x] = x \/ x = neg_zero /\ np_mean [x] = 0%float.
Proof.
  rewrite np_mean_sum_single.
  destruct (np_sum_single x) as [-> | ->]; [by left |].
  apply zero_add_cases.
Qed.

(** The squared deviation of one sample from its mean: zero for a finite
    sample, NaN for an infinite one or a NaN. *)
Lemma squared_deviation_single x :
  ((x - np_mean [x]) * (x - np_mean [x]))%float =
    if is_finite x then 0%float else nan.
Proof.
  destruct (np_mean_single x) as [-> | [-> ->]]; [| done].
  rewrite sub_self. by destruct (is_finite x).
Qed.

Lemma np_sum_single_zero : np_sum [0%float] = 0%float.
Proof. by destruct (np_sum_single 0) as [-> | ->]. Qed.

Lemma np_sum_single_nan : np_sum [nan] = nan.
Proof. by destruct (np_sum_single nan) as [-> | ->]. Qed.

(** Zero for a finite sample, NaN for an infinite one or a NaN. *)
Lemma np_std_single x :
  np_std [x] = if is_finite x then 0%float else nan.
Proof.
  rewrite np_std_unfold. cbn [map]. rewrite squared_deviation_single.
  change (float_of_count (length [x])) with 1%float. rewrite div_one.
  destruct (is_finite x).
  - by rewrite np_sum_single_zero.
  - by rewrite np_sum_single_nan.
Qed.

Lemma evaluate_single self tag_name value n :
  history self !! tag_name = Some (Deque n [value]) ->
  window_size self / 2 <= 1 ->
  evaluate self tag_name value =
    Ok (Some (false, if is_finite value then 0%float else nan,
              np_mean [value])).
Proof.
  intros Hw Hgate. unfold evaluate. rewrite Hw.
  change (len (Deque n [value])) with 1.
  destruct (Z.ltb_spec 1 (window_size self / 2)); [lia |].
  cbn [items]. rewrite np_std_single.
  destruct (is_finite value); [done |].
  change (PrimFloat.eqb nan 0) with false. cbv iota.
  unfold true_divide. change (PrimFloat.eqb nan 0) with false. cbv iota.
  by rewrite div_nan_r, ltb_nan_r.
Qed.

End FirstSample.

Section WarmUp.
Context `{NumPy}.

Lemma evaluate_not_insufficient self tag_name value w :
  history self !! tag_name = Some w ->
  window_size self / 2 <= len w ->
  evaluate self tag_name value <> Ok None.
Proof.
  intros Hw Hgate. unfold evaluate, true_divide. rewrite Hw.
  destruct (Z.ltb_spec (len w) (window_size self / 2)); [lia |].
  by destruct (PrimFloat.eqb (np_std (items w)) 0).
Qed.

(** C9, as amended. In a detector built with [window_size <= 3] no call
    ever returns the triple of [None]s ([Insufficient]), whatever the tag
    and the value. With [1 <= window_size <= 3] the first sample of a tag
    not seen before is evaluated at once, and it is never an anomaly
    ([Normal]): the z-score is 0 when the sample is finite and NaN when it
    is an infinity or a NaN (the standard deviation of the one-element
    window is then NaN, not 0). The mean is the one [np.mean] gives for the
    window of one: the sample, or [+0.0] for a sample of [-0.0]. This is
    proved for every reduction that gives, for a one-element array, the
    element or the identity [0.0] plus the element. *)
Theorem no_warm_up ws th samples tag_name value :
  ws <= 3 ->
  let self := (add_samples (init ws th) samples).1 in
  let r := (add_sample self tag_name value).2 in
  r <> Ok None /\
  ((forall x, np_sum [x] = x \/ np_sum [x] = (0 + x)%float) ->
   1 <= ws -> history self !! tag_name = None ->
   let z_score := if is_finite value then 0%float else nan in
   let mean := np_mean [value] in
   r = Ok (Some (false, z_score, mean)) /\
   classification_of r = Ok (Normal z_score mean) /\
   (mean = value \/ value = neg_zero /\ mean = 0%float)).
Proof.
  intros Hws self r.
  destruct (add_samples_well_formed samples (init ws th) ltac:(done))
    as (Hwf & Hsize & _).
  fold self in Hwf, Hsize. simpl in Hsize. subst r.
  destruct (add_sample_cases self tag_name value)
    as [(_ & Hout & ->) | [Hex Hrun]].
  { split; [done |]. intros _ Hone _. rewrite Hsize in Hout. lia. }
  simpl in Hrun. rewrite Hrun. simpl. clear Hrun.
  assert (maxlen (window_before self tag_name) = ws) as Hmax.
  { unfold window_before.
    destruct (history self !! tag_name) as [old|] eqn:Hold; simpl; [| done].
    rewrite <- Hsize. by apply (Hwf tag_name). }
  split.
  - eapply evaluate_not_insufficient.
    + simpl. apply lookup_insert_eq.
    + simpl.
      pose proof (deque_append_len_lower (window_before self tag_name) value).
      assert (0 <= len (deque_append (window_before self tag_name) value))
        by (unfold len; lia).
      rewrite Hmax in *. rewrite Hsize.
      Z.to_euclidean_division_equations. lia.
  - intros Hsingle Hone Hnew.
    assert (evaluate
              (Detector (window_size self) (threshold self)
                 (<[tag_name:=deque_append (window_before self tag_name) value]>
                    (history self))) tag_name value
            = Ok (Some (false, if is_finite value then 0%float else nan,
                        np_mean [value])))
      as ->; [| repeat split; by apply np_mean_single].
    apply (evaluate_single Hsingle _ _ _ ws).
    + simpl. rewrite lookup_insert_eq. f_equal.
      unfold window_before. rewrite Hnew, Hsize. simpl.
      unfold deque_append. simpl.
      destruct (Z.ltb_spec ws (Z.of_nat 1)); [lia | done].
    + simpl. rewrite Hsize. Z.to_euclidean_division_equations. lia.
Qed.

End WarmUp.

(** ** The polling loop *)

Lemma alerts_sent_app evs1 evs2 :
  alerts_sent (evs1 ++ evs2) = alerts_sent evs1 ++ alerts_sent evs2.
Proof.
  induction evs1 as [|[entry|a] evs1 IH]; simpl; [done | done |].
  by rewrite IH.
Qed.

Section LoopFacts.
Context `{NumPy} `{Builtins}.
Variable cfg : Config.
Variable iot_client : bool.

Local Abbreviation poll st nodes := (fold_left (poll_node cfg) nodes st).

(** What a node adds to the state does not depend on the counter, the
    batch and the output so far; and it sends nothing. *)
Lemma poll_node_frame st node :
  let s0 := poll_node cfg (LoopState (detector st) 0 [] []) node in
  poll_node cfg st node =
    LoopState (detector s0) (anomaly_count st + anomaly_count s0)
      (anomalies_detected st ++ anomalies_detected s0)
      (output st ++ output s0) /\
  alerts_sent (output s0) = [] /\
  anomaly_count s0 = Z.of_nat (length (anomalies_detected s0)).
Proof.
  destruct st as [d c b out]. destruct node as [tag_name [value|e]]; simpl.
  - destruct (add_sample d tag_name value) as [d' [[[[[|] z] m]|]|e]]; simpl;
      rewrite ?Z.add_0_r, ?app_nil_r; done.
  - by rewrite Z.add_0_r, app_nil_r.
Qed.

Lemma poll_frame nodes : forall st,
  let s0 := poll (LoopState (detector st) 0 [] []) nodes in
  poll st nodes =
    LoopState (detector s0) (anomaly_count st + anomaly_count s0)
      (anomalies_detected st ++ anomalies_detected s0)
      (output st ++ output s0) /\
  alerts_sent (output s0) = [] /\
  anomaly_count s0 = Z.of_nat (length (anomalies_detected s0)).
Proof.
  induction nodes as [|node nodes IH]; intros st; simpl.
  - destruct st; simpl. by rewrite Z.add_0_r, !app_nil_r.
  - destruct (poll_node_frame st node) as (Hst & _ & _).
    destruct (poll_node_frame (LoopState (detector st) 0 [] []) node)
      as (_ & Hsent1 & Hcount1).
    simpl in Hsent1, Hcount1.
    set (s1 := poll_node cfg (LoopState (detector st) 0 [] []) node) in *.
    destruct (IH (poll_node cfg st node)) as (Hrun & Hsent2 & Hcount2).
    destruct (IH s1) as (Hrun1 & _ & _).
    rewrite Hst in Hrun, Hsent2, Hcount2. simpl in Hrun, Hsent2, Hcount2.
    set (s2 := poll (LoopState (detector s1) 0 [] []) nodes) in *.
    rewrite Hst, Hrun, Hrun1. simpl.
    rewrite alerts_sent_app, Hsent1, Hsent2, length_app.
    split; [| split; [done | lia]].
    f_equal; [lia | by rewrite app_assoc | by rewrite app_assoc].
Qed.

(** The alerts of a cycle: one when the batch is not empty and a client
    is connected, none otherwise. *)
Lemma cycle_alerts st i :
  let st' := cycle cfg iot_client st i in
  alerts_sent (output st') =
    alerts_sent (output st) ++
      (if iot_client && bool_decide (anomalies_detected st' <> [])
       then [make_alert cfg st' (now i)] else []) /\
  anomaly_count st' =
    anomaly_count st + Z.of_nat (length (anomalies_detected st')).
Proof.
  unfold cycle.
  destruct (poll_frame (reads i)
              (LoopState (detector st) (anomaly_count st) [] (output st)))
    as (Hrun & Hsent & Hcount).
  simpl in Hrun, Hsent, Hcount. rewrite Hrun.
  set (s0 := poll (LoopState (detector st) 0 [] []) (reads i)) in *.
  unfold send_alert. simpl.
  destruct (anomalies_detected s0) as [|info batch] eqn:Hbatch; simpl.
  - rewrite alerts_sent_app, Hsent, Hcount, andb_false_r. simpl.
    by rewrite app_nil_r.
  - destruct iot_client; simpl.
    + destruct (delivery i); simpl;
        rewrite !alerts_sent_app, Hsent, Hcount; simpl;
        rewrite !app_nil_r; unfold make_alert; simpl; done.
    + by rewrite alerts_sent_app, Hsent, Hcount, app_nil_r.
Qed.

End LoopFacts.

Lemma non_decreasing_snoc l a :
  non_decreasing l ->
  (forall p, p ∈ l -> totalAnomalies p <= totalAnomalies a) ->
  non_decreasing (l ++ [a]).
Proof.
  intros Hl Ha i j p1 p2 Hi Hj Hij.
  destruct (decide (j < length l)%nat) as [Hjl | Hjl].
  - rewrite lookup_app_l in Hi, Hj by lia. by eapply Hl.
  - rewrite lookup_app_r in Hj by lia.
    destruct (j - length l)%nat as [|k] eqn:Hk; [| by destruct k].
    simpl in Hj. inversion Hj; subst p2; clear Hj.
    destruct (decide (i < length l)%nat) as [Hil | Hil].
    + rewrite lookup_app_l in Hi by lia.
      apply Ha. by eapply list_elem_of_lookup_2.
    + rewrite lookup_app_r in Hi by lia.
      destruct (i - length l)%nat as [|k']; [| by destruct k'].
      simpl in Hi. by inversion Hi.
Qed.

Section LoopInvariants.
Context `{NumPy} `{Builtins}.
Variable cfg : Config.
Variable iot_client : bool.



Lemma cycle_totals_bounded st i :
  totals_bounded st -> totals_bounded (cycle cfg iot_client st i).
Proof.
  intros [Hsorted Hbound].
  destruct (cycle_alerts cfg iot_client st i) as [Hsent Hcount].
  unfold totals_bounded. rewrite Hsent, Hcount.
  destruct (_ && _).
  - split.
    + apply non_decreasing_snoc; [done |].
      intros p Hp. apply Hbound in Hp. simpl. lia.
    + intros p [Hp | Hp]%elem_of_app.
      * apply Hbound in Hp. lia.
      * apply list_elem_of_singleton in Hp. subst p. simpl. lia.
  - rewrite app_nil_r. split; [done |].
    intros p Hp. apply Hbound in Hp. lia.
Qed.

Lemma run_totals_bounded inputs : forall st,
  totals_bounded st -> totals_bounded (run cfg iot_client st inputs).
Proof.
  induction inputs as [|i inputs IH]; intros st Hst; [done |].
  simpl. apply IH. by apply cycle_totals_bounded.
Qed.


(** C6. Of any two alerts handed over during one run of the loop, the
    one sent first carries a [totalAnomalies] that is not larger. *)
Theorem total_anomalies_monotone inputs i j p1 p2 :
  let sent := alerts_sent (output (run cfg iot_client (start cfg) inputs)) in
  sent !! i = Some p1 -> sent !! j = Some p2 -> (i <= j)%nat ->
  totalAnomalies p1 <= totalAnomalies p2.
Proof.
  intros sent Hi Hj Hij.
  assert (totals_bounded (start cfg)) as Hstart.
  { split; [by intros ? ? ? ? ? | by intros ? ?%elem_of_nil]. }
  destruct (run_totals_bounded inputs _ Hstart) as [Hsorted _].
  by eapply Hsorted.
Qed.

End LoopInvariants.

Lemma elem_of_alerts_sent a evs : a ∈ alerts_sent evs <-> Sent a ∈ evs.
Proof.
  induction evs as [|[entry|a'] evs IH]; simpl.
  - by rewrite !elem_of_nil.
  - rewrite IH, elem_of_cons. split; [by right | by intros [? | ?]].
  - rewrite !elem_of_cons, IH. split.
    + intros [-> | ?]; [by left | by right].
    + intros [[= ->] | ?]; [by left | by right].
Qed.

Section Cycle.
Context `{NumPy} `{Builtins}.
Variable cfg : Config.

Local Abbreviation poll st nodes := (fold_left (poll_node cfg) nodes st).

(** What [send_alert] appends does not depend on the output so far. *)
Lemma send_alert_frame iot_client d c b ts dl :
  exists evs, forall out,
    send_alert cfg iot_client (LoopState d c b out) ts dl =
      LoopState d c b (out ++ evs).
Proof.
  unfold send_alert. simpl. destruct b as [|info b].
  - exists []. intros out. by rewrite app_nil_r.
  - destruct iot_client.
    + destruct dl; eexists; intros out; unfold emit, make_alert; simpl;
        rewrite <- app_assoc; simpl; reflexivity.
    + exists []. intros out. by rewrite app_nil_r.
Qed.

(** C7, as amended. In every cycle whose batch of anomalies is not
    empty, and provided an IoT Hub client is connected, the loop builds
    one alert (device identity, time stamp of the cycle, the list of the
    anomalies, their number, the running total, the severity derived from
    the number) and hands it to the client. Without a client no alert is
    built. *)
Theorem alert_handed_over st i :
  let polled := cycle cfg true st i in
  anomalies_detected polled <> [] ->
  let alert :=
    {| messageType := "anomalyAlert";
       deviceId := DEVICE_ID cfg;
       timestamp := now i;
       anomalyCount := Z.of_nat (length (anomalies_detected polled));
       totalAnomalies :=
         anomaly_count st + Z.of_nat (length (anomalies_detected polled));
       anomalies := anomalies_detected polled;
       severity :=
         if Z.of_nat (length (anomalies_detected polled)) <? 2
         then "warning" else "critical" |} in
  Sent alert ∈ output polled /\
  alerts_sent (output polled) = alerts_sent (output st) ++ [alert] /\
  alerts_sent (output (cycle cfg false st i)) = alerts_sent (output st).
Proof.
  intros polled Hbatch alert.
  destruct (cycle_alerts cfg true st i) as [Hsent Hcount].
  fold polled in Hsent, Hcount.
  rewrite bool_decide_eq_true_2 in Hsent by done. simpl in Hsent.
  assert (make_alert cfg polled (now i) = alert) as Halert.
  { unfold make_alert, alert. by rewrite Hcount. }
  rewrite Halert in Hsent. split; [| split; [done |]].
  - apply elem_of_alerts_sent. rewrite Hsent. set_solver.
  - destruct (cycle_alerts cfg false st i) as [-> _]. simpl.
    by rewrite app_nil_r.
Qed.

(** A cycle reads the detector and the running total of the state it
    starts from, and appends to the output. *)
Lemma cycle_frame iot_client st i :
  let s0 :=
    cycle cfg iot_client
      (LoopState (detector st) (anomaly_count st) [] []) i in
  cycle cfg iot_client st i =
    LoopState (detector s0) (anomaly_count s0) (anomalies_detected s0)
      (output st ++ output s0).
Proof.
  unfold cycle. simpl.
  destruct (poll_frame cfg (reads i)
              (LoopState (detector st) (anomaly_count st) [] (output st)))
    as (-> & _ & _).
  destruct (poll_frame cfg (reads i)
              (LoopState (detector st) (anomaly_count st) [] []))
    as (-> & _ & _).
  simpl.
  set (s0 := poll (LoopState (detector st) 0 [] []) (reads i)).
  destruct (send_alert_frame iot_client (detector s0)
              (anomaly_count st + anomaly_count s0)
              (anomalies_detected s0) (now i) (delivery i)) as [evs Hsend].
  rewrite !Hsend. simpl. by rewrite app_assoc.
Qed.

(** Two states that differ in their output only stay so, turn after turn,
    and print the same lines. *)
Lemma run_frame iot_client inputs : forall s1 s2,
  detector s1 = detector s2 ->
  anomaly_count s1 = anomaly_count s2 ->
  anomalies_detected s1 = anomalies_detected s2 ->
  exists later,
    output (run cfg iot_client s1 inputs) = output s1 ++ later /\
    output (run cfg iot_client s2 inputs) = output s2 ++ later /\
    detector (run cfg iot_client s1 inputs)
      = detector (run cfg iot_client s2 inputs) /\
    anomaly_count (run cfg iot_client s1 inputs)
      = anomaly_count (run cfg iot_client s2 inputs) /\
    anomalies_detected (run cfg iot_client s1 inputs)
      = anomalies_detected (run cfg iot_client s2 inputs).
Proof.
  induction inputs as [|i inputs IH]; intros s1 s2 Hd Hc Hb.
  - exists []. simpl. by rewrite !app_nil_r.
  - simpl.
    pose proof (cycle_frame iot_client s1 i) as H1.
    pose proof (cycle_frame iot_client s2 i) as H2.
    simpl in H1, H2. rewrite <- Hd, <- Hc in H2.
    set (s0 := cycle cfg iot_client
                 (LoopState (detector s1) (anomaly_count s1) [] []) i) in *.
    destruct (IH (cycle cfg iot_client s1 i) (cycle cfg iot_client s2 i))
      as (later & Ho1 & Ho2 & Hrest); [by rewrite H1, H2 ..|].
    exists (output s0 ++ later).
    split; [rewrite Ho1, H1; simpl; by rewrite app_assoc |].
    split; [rewrite Ho2, H2; simpl; by rewrite app_assoc |].
    exact Hrest.
Qed.

End Cycle.

(** * The model at work *)

(** ** The detector *)

(** Ten samples of 72.0 and then 200.0, under the defaults: the eleventh
    call computes a mean of 83.63..., a z-score of 3.16... and reports an
    anomaly. *)
Lemma add_sample_z_score_witness :
  let self := feed 20 (repeat ("Temperature"%string, f72) 10) in
  (@add_sample numpy_float64 self "Temperature" f200).2 =
    Ok (Some (true, 0x1.94c583ada5b53p+1%float, 0x1.4e8ba2e8ba2e9p+6%float)).
Proof.
  intros self.
  destruct (@add_sample_z_score numpy_float64 self "Temperature" f200
              (@add_sample numpy_float64 self "Temperature" f200).1
              (@add_sample numpy_float64 self "Temperature" f200).2
              (Deque 20 (repeat f72 10 ++ [f200]))) as (_ & Hr & _).
  - apply surjective_pairing.
  - vm_compute. reflexivity.
  - vm_compute. discriminate.
  - vm_compute. reflexivity.
  - rewrite Hr. vm_compute. reflexivity.
Defined.

(** The first sample of a window of twenty is insufficient, be it
    infinite. *)
Lemma add_sample_insufficient_witness :
  (@add_sample numpy_float64 (init 20 f2_5) "Temperature" infinity).2 = Ok None.
Proof.
  destruct (@add_sample_insufficient numpy_float64 (init 20 f2_5) "Temperature"
              infinity
              (@add_sample numpy_float64 (init 20 f2_5) "Temperature" infinity).1
              (@add_sample numpy_float64 (init 20 f2_5) "Temperature" infinity).2
              (Deque 20 [infinity])) as [Hr _].
  - apply surjective_pairing.
  - vm_compute. reflexivity.
  - vm_compute. reflexivity.
  - exact Hr.
Defined.

(** Ten samples of 72.0 under the defaults: the tenth call finds a
    standard deviation of zero and returns a z-score of 0 with mean 72. *)
Lemma add_sample_flat_witness :
  let self := feed 20 (repeat ("Temperature"%string, f72) 9) in
  (@add_sample numpy_float64 self "Temperature" f72).2 =
    Ok (Some (false, 0%float, f72)).
Proof.
  intros self.
  destruct (@add_sample_flat numpy_float64 self "Temperature" f72
              (@add_sample numpy_float64 self "Temperature" f72).1
              (@add_sample numpy_float64 self "Temperature" f72).2
              (surjective_pairing _)) as [_ Hflat].
  destruct (Hflat (Deque 20 (repeat f72 10))) as [Hr _].
  - vm_compute. reflexivity.
  - vm_compute. discriminate.
  - vm_compute. reflexivity.
  - rewrite Hr. vm_compute. reflexivity.
Defined.

(** C3, at an input on which the code departs from it. Three samples
    of 0.1 with [window_size = 6]: the window that the third call evaluates
    holds three identical values, yet [np.mean] gives 0.10000000000000002
    for it and [np.std] gives 2^-56, not 0. The test [std == 0] of line 78
    fails and the call goes on to the division of line 81: under the
    default threshold it returns a z-score of 1, not 0, and under a
    threshold of 0.5 it reports the constant signal as an anomaly. *)
Theorem identical_values_not_flat :
  let samples := repeat ("Temperature"%string, tenth) 2 in
  let by_default :=
    @add_sample numpy_float64 (feed 6 samples) "Temperature" tenth in
  let sensitive :=
    @add_sample numpy_float64
      (@add_samples numpy_float64 (init 6 0.5%float) samples).1
      "Temperature" tenth in
  history by_default.1 !! "Temperature"
    = Some (Deque 6 [tenth; tenth; tenth]) /\
  @np_mean numpy_float64 [tenth; tenth; tenth] = 0x1.999999999999bp-4%float /\
  @np_std numpy_float64 [tenth; tenth; tenth] = 0x1p-56%float /\
  PrimFloat.eqb 0x1p-56 0 = false /\
  by_default.2 = Ok (Some (false, 1%float, 0x1.999999999999bp-4%float)) /\
  sensitive.2 = Ok (Some (true, 1%float, 0x1.999999999999bp-4%float)) /\
  classification_of sensitive.2
    = Ok (Anomalous 1 0x1.999999999999bp-4).
Proof. vm_compute. repeat split; reflexivity. Qed.

(** A window of three, fed four samples of one tag and one of another. *)
Lemma window_most_recent_witness :
  let samples :=
    [("Temperature"%string, 1%float); ("Pressure"%string, 9%float);
     ("Temperature"%string, 2%float); ("Temperature"%string, 3%float);
     ("Temperature"%string, 4%float)] in
  history (@add_samples numpy_float64 (init 3 f2_5) samples).1 !! "Temperature"
    = Some (Deque 3 [2%float; 3%float; 4%float]).
Proof.
  intros samples.
  destruct (@window_most_recent numpy_float64 3 f2_5 samples "Temperature"
              ltac:(lia)) as [_ Hw].
  destruct (history (@add_samples numpy_float64 (init 3 f2_5) samples).1
              !! "Temperature") as [[n vs]|] eqn:Hlook.
  - destruct Hw as (_ & _ & Hn & Hvs & _). simpl in Hn, Hvs. by subst n vs.
  - destruct Hw as [Hw | Hw]; [vm_compute in Hw; discriminate Hw | lia].
Defined.

(** In a window of three the very first sample is evaluated at once:
    72.0 gives no anomaly, a z-score of 0 and a mean of 72; so does -0.0,
    with a mean of +0.0. *)
Lemma no_warm_up_witness :
  (@add_sample numpy_float64 (init 3 f2_5) "Temperature" f72).2 =
    Ok (Some (false, 0%float, f72)) /\
  (@add_sample numpy_float64 (init 3 f2_5) "Temperature" neg_zero).2 =
    Ok (Some (false, 0%float, 0%float)).
Proof.
  split.
  - destruct (@no_warm_up numpy_float64 3 f2_5 [] "Temperature" f72
                ltac:(lia)) as [_ Hfirst].
    destruct (Hfirst (fun x => or_intror (add_reduce_single x)) ltac:(lia)
                ltac:(reflexivity)) as (Hr & _ & _).
    exact Hr.
  - destruct (@no_warm_up numpy_float64 3 f2_5 [] "Temperature" neg_zero
                ltac:(lia)) as [_ Hfirst].
    destruct (Hfirst (fun x => or_intror (add_reduce_single x)) ltac:(lia)
                ltac:(reflexivity)) as (Hr & _ & _).
    exact Hr.
Defined.

(** In a window of three a first sample of plus infinity is evaluated at
    once, and its z-score is NaN, not 0. *)
Lemma first_sample_infinite :
  (@add_sample numpy_float64 (init 3 f2_5) "Temperature" infinity).2 =
    Ok (Some (false, nan, infinity)) /\
  @np_std numpy_float64 [infinity] = nan /\
  PrimFloat.eqb nan 0 = false.
Proof. vm_compute. repeat split; reflexivity. Qed.

(** ** The loop *)


(** Twelve cycles with a client: the first alert has a total of 1, the
    second a total of 3. *)
Lemma total_anomalies_monotone_witness :
  exists p1 p2,
    alerts_sent (output (demo_run true demo_inputs)) !! 0%nat = Some p1 /\
    alerts_sent (output (demo_run true demo_inputs)) !! 1%nat = Some p2 /\
    totalAnomalies p1 <= totalAnomalies p2.
Proof.
  destruct (alerts_sent (output (demo_run true demo_inputs)) !! 0%nat)
    as [p1|] eqn:Hfirst; [| vm_compute in Hfirst; discriminate Hfirst].
  destruct (alerts_sent (output (demo_run true demo_inputs)) !! 1%nat)
    as [p2|] eqn:Hsecond; [| vm_compute in Hsecond; discriminate Hsecond].
  exists p1, p2. repeat split.
  apply (@total_anomalies_monotone numpy_float64 no_rounding demo_config true
           demo_inputs 0%nat 1%nat p1 p2 Hfirst Hsecond).
  lia.
Defined.

(** The eleventh cycle, with a client: the spike on the vibration is sent
    as a warning with a total of 1. *)
Lemma alert_handed_over_witness :
  let polled := demo_cycle true (demo_run true demo_warm_up) one_spike in
  alerts_sent (output polled) =
    [ {| messageType := "anomalyAlert";
         deviceId := "ipc-01";
         timestamp := "t11";
         anomalyCount := 1;
         totalAnomalies := 1;
         anomalies := anomalies_detected polled;
         severity := "warning" |} ] /\
  length (anomalies_detected polled) = 1%nat.
Proof.
  intros polled.
  assert (length (anomalies_detected polled) = 1%nat) as Hlen
    by (vm_compute; reflexivity).
  split; [| exact Hlen].
  destruct (@alert_handed_over numpy_float64 no_rounding demo_config
              (demo_run true demo_warm_up) one_spike) as (_ & Hsent & _).
  - fold polled. intros Hnil. rewrite Hnil in Hlen. discriminate Hlen.
  - fold polled in Hsent. rewrite Hsent, Hlen.
    assert (alerts_sent (output (demo_run true demo_warm_up)) = []) as ->
      by (vm_compute; reflexivity).
    assert (anomaly_count (demo_run true demo_warm_up) = 0) as ->
      by (vm_compute; reflexivity).
    reflexivity.
Defined.

(** The same cycle without a client (the default, when no connection
    string is configured): the batch holds the anomaly, the log reports it,
    and no alert is built or sent. *)
Lemma no_client_no_alert :
  let polled := demo_cycle false (demo_run false demo_warm_up) one_spike in
  length (anomalies_detected polled) = 1%nat /\
  alerts_sent (output polled) = [] /\
  length (output polled) = 1%nat.
Proof. vm_compute. repeat split; reflexivity. Qed.

(** Three nodes, the read of the second fails: the two others are
    classified, the failure is on the log, the alert goes out. *)
Example one_read_fails :
  let polled := demo_cycle true (demo_run true demo_warm_up) one_fails in
  info_tag <$> anomalies_detected polled = ["Vibration"%string] /\
  len <$> history (detector polled) !! "Vibration" = Some 11 /\
  len <$> history (detector polled) !! "Temperature" = Some 10 /\
  len <$> history (detector polled) !! "Pressure" = Some 11 /\
  output polled !! 1%nat
    = Some (read_error_line "Temperature" (UaError "BadTimeout")) /\
  severity <$> alerts_sent (output polled) = ["warning"%string].
Proof. vm_compute. repeat split; reflexivity. Qed.

(** * Further properties of the detector *)

Section WarmUpLength.
Context `{NumPy}.

(** What the call does when the window can be created. *)
Lemma add_sample_run self tag_name value :
  is_Some (history self !! tag_name) \/
  0 <= window_size self <= PY_SSIZE_T_MAX ->
  add_sample self tag_name value =
    (Detector (window_size self) (threshold self)
       (<[tag_name := deque_append (window_before self tag_name) value]>
          (history self)),
     evaluate
       (Detector (window_size self) (threshold self)
          (<[tag_name := deque_append (window_before self tag_name) value]>
             (history self))) tag_name value).
Proof.
  intros Hcan.
  destruct (add_sample_cases self tag_name value)
    as [(Hnone & Hout & _) | [_ Hrun]]; [| exact Hrun].
  destruct Hcan as [[w Hw] | Hfits]; [congruence | done].
Qed.

(** The outcome is the triple of [None]s exactly below the gate. *)
Lemma evaluate_insufficient_iff self tag_name value w :
  history self !! tag_name = Some w ->
  evaluate self tag_name value = Ok None <-> len w < window_size self / 2.
Proof.
  intros Hw. unfold evaluate, true_divide. rewrite Hw.
  destruct (Z.ltb_spec (len w) (window_size self / 2)).
  - done.
  - split; [| lia]. by destruct (PrimFloat.eqb (np_std (items w)) 0).
Qed.

(** X1. In a detector built with a [window_size] that [deque] accepts
    (not negative, and a [Py_ssize_t]), the k-th sample of a tag is
    answered by the triple of [None]s exactly when [k < window_size // 2]:
    the first [window_size // 2 - 1] samples of every tag warm its window
    up, every later one is evaluated, whatever the other tags do in
    between. *)
Theorem warm_up_ends ws th samples tag_name value :
  0 <= ws <= PY_SSIZE_T_MAX ->
  let self := (add_samples (init ws th) samples).1 in
  let k := Z.of_nat (length (pushed tag_name samples)) + 1 in
  (add_sample self tag_name value).2 = Ok None <-> k < ws / 2.
Proof.
  intros Hws self k.
  assert (tracks ws (init ws th) tag_name []) as Htr0 by done.
  destruct (add_samples_tracks ws samples _ _ _ Hws Htr0) as [Htr _].
  fold self in Htr. simpl in Htr.
  pose proof Htr as [Hsize _].
  pose proof (add_sample_tracks ws self tag_name _ tag_name value Hws Htr)
    as [_ Hafter].
  rewrite decide_True in Hafter by done.
  rewrite add_sample_run in * by (right; lia). simpl in *.
  rewrite lookup_insert_eq in Hafter.
  rewrite evaluate_insufficient_iff by (simpl; apply lookup_insert_eq).
  simpl. destruct (pushed tag_name samples ++ [value]) as [|v0 vs0] eqn:Hvs.
  { by destruct (pushed tag_name samples). }
  injection Hafter as ->. rewrite <- Hvs. clear Hvs.
  unfold len. simpl items. rewrite most_recent_length by lia.
  rewrite length_app. simpl. subst k. rewrite Hsize.
  Z.to_euclidean_division_equations. lia.
Qed.

(** X2. In a detector built with a [window_size] that [deque] refuses,
    every call raises the error of [deque] and leaves the detector as it
    was built, without any window: [ValueError] ("maxlen must be
    non-negative") for a negative [window_size] from [-2^63] on,
    [OverflowError] ("Python int too large to convert to C ssize_t") for a
    [window_size] below [-2^63] or above [2^63 - 1]. *)
Theorem window_size_refused ws th samples tag_name value :
  ws < 0 \/ PY_SSIZE_T_MAX < ws ->
  let self := (add_samples (init ws th) samples).1 in
  self = init ws th /\
  add_sample self tag_name value =
    (self,
     Raise (if (PY_SSIZE_T_MIN <=? ws) && (ws <? 0)
            then ValueError "maxlen must be non-negative"
            else OverflowError "Python int too large to convert to C ssize_t")).
Proof.
  intros Hws self.
  assert (self = init ws th) as ->
    by (apply add_samples_refused; simpl; done || lia).
  split; [done |].
  rewrite add_sample_refused by (simpl; done || lia). done.
Qed.

End WarmUpLength.

(** ** The sign of the z-score, and NaN samples *)

Section Signs.

Lemma sub_nan_l x : (nan - x)%float = nan.
Proof.
  apply Prim2SF_inj. rewrite FloatAxioms.sub_spec.
  by change (Prim2SF nan) with S754_nan.
Qed.

Lemma div_nan_l x : (nan / x)%float = nan.
Proof.
  apply Prim2SF_inj. rewrite FloatAxioms.div_spec.
  by change (Prim2SF nan) with S754_nan.
Qed.

(** Rounding keeps the sign it is given. *)
Lemma binary_round_aux_not_negative m e l :
  SF_not_negative (binary_round_aux 53 1024 false m e l) = true.
Proof.
  unfold binary_round_aux.
  destruct (shr_fexp 53 1024 m e l) as [mrs e'].
  destruct (shr_fexp 53 1024 _ e' loc_Exact) as [mrs' e''].
  destruct (shr_m mrs'); [done | | done].
  by destruct (e'' <=? 1024 - 53).
Qed.

Lemma SFltb_zero x :
  SF_not_negative x = true -> SFltb x (S754_zero false) = false.
Proof. by destruct x as [s|[|]| |[|] m e]. Qed.

Lemma SFsqrt_positive_or_nan y :
  SFeqb (SF64sqrt y) (S754_zero false) = false ->
  SF_positive_or_nan (SF64sqrt y) = true.
Proof.
  destruct y as [s|[|]| |[|] m e]; simpl; try done.
  unfold SF64sqrt, SFsqrt.
  destruct (SFsqrt_core_binary prec emax (Z.pos m) e) as [[mz ez] lz].
  pose proof (binary_round_aux_not_negative mz ez lz) as Hsign.
  unfold prec, emax.
  by destruct (binary_round_aux 53 1024 false mz ez lz) as [s|[|]| |[|] m' e'].
Qed.

Lemma SFdiv_not_negative x y :
  SF_positive_or_nan y = true ->
  SF_not_negative (SF64div (SFabs x) y) = true.
Proof.
  destruct y as [s|[|]| |[|] my ey]; try done;
    destruct x as [s|s| |s mx ex]; try done.
  intros _. unfold SF64div, SFdiv, SFabs.
  destruct (SFdiv_core_binary prec emax (Z.pos mx) ex (Z.pos my) ey)
    as [[mz ez] lz].
  apply binary_round_aux_not_negative.
Qed.

(** [abs(x) / sqrt(y)] is never below zero, provided the square root is
    not zero. *)
Lemma abs_div_sqrt_not_negative x y :
  PrimFloat.eqb (PrimFloat.sqrt y) 0 = false ->
  PrimFloat.ltb (PrimFloat.abs x / PrimFloat.sqrt y) 0 = false.
Proof.
  rewrite FloatAxioms.eqb_spec, FloatAxioms.ltb_spec, FloatAxioms.div_spec,
    FloatAxioms.abs_spec, FloatAxioms.sqrt_spec.
  change (Prim2SF 0) with (S754_zero false).
  intros Hstd. apply SFltb_zero, SFdiv_not_negative.
  by apply SFsqrt_positive_or_nan.
Qed.

End Signs.

Section SignsOfCalls.
Context `{NumPy}.

(** X4. A sample that is NaN is never reported as an anomaly, whatever
    the window and the threshold. *)
Theorem nan_sample_not_flagged self tag_name :
  flagged (add_sample self tag_name nan).2 = false.
Proof.
  destruct (add_sample_cases self tag_name nan)
    as [(_ & _ & ->) | [_ Hrun]]; [done |].
  simpl in Hrun. rewrite Hrun. simpl. unfold evaluate. simpl.
  rewrite lookup_insert_eq.
  destruct (len _ <? _); [done |].
  destruct (PrimFloat.eqb (np_std _) 0) eqn:Hstd; [done |].
  unfold true_divide. rewrite Hstd, sub_nan_l.
  change (PrimFloat.abs nan) with nan. by rewrite div_nan_l, ltb_nan_r.
Qed.

(** X5. The z-score a call reports is never negative: it is zero,
    positive, plus infinity or NaN. *)
Theorem z_score_not_negative self tag_name value z_score :
  z_score_of (add_sample self tag_name value).2 = Some z_score ->
  PrimFloat.ltb z_score 0 = false.
Proof.
  destruct (add_sample_cases self tag_name value)
    as [(_ & _ & ->) | [_ Hrun]]; [done |].
  simpl in Hrun. rewrite Hrun. simpl. unfold evaluate. simpl.
  rewrite lookup_insert_eq.
  destruct (len _ <? _); [done |].
  destruct (PrimFloat.eqb (np_std _) 0) eqn:Hstd.
  { by intros [= <-]. }
  unfold true_divide. rewrite Hstd. simpl. intros [= <-].
  unfold np_std in *. by apply abs_div_sqrt_not_negative.
Qed.

End SignsOfCalls.

(** ** Tags do not see each other *)

Section Independence.
Context `{NumPy}.

(** The outcome depends on the window of the tag and on the two
    settings, on nothing else. *)
Lemma evaluate_ext self1 self2 tag_name value :
  window_size self1 = window_size self2 ->
  threshold self1 = threshold self2 ->
  history self1 !! tag_name = history self2 !! tag_name ->
  evaluate self1 tag_name value = evaluate self2 tag_name value.
Proof. intros Hws Hth Hw. unfold evaluate. by rewrite Hws, Hth, Hw. Qed.

(** X6. Calls on two different tags commute: made in either order they
    leave the same detector and give the same two outcomes. *)
Theorem add_sample_commute self tag1 value1 tag2 value2 :
  tag1 <> tag2 ->
  let first1 := add_sample self tag1 value1 in
  let then2 := add_sample first1.1 tag2 value2 in
  let first2 := add_sample self tag2 value2 in
  let then1 := add_sample first2.1 tag1 value1 in
  then2.1 = then1.1 /\ first1.2 = then1.2 /\ then2.2 = first2.2.
Proof.
  intros Hne first1 then2 first2 then1.
  subst then2 then1.
  destruct (add_sample_cases self tag1 value1)
    as [(Hnone1 & Hneg1 & Hcall1) | [Hex1 Hcall1]];
  destruct (add_sample_cases self tag2 value2)
    as [(Hnone2 & Hneg2 & Hcall2) | [Hex2 Hcall2]];
  simpl in Hcall1, Hcall2; subst first1 first2;
  rewrite Hcall1, Hcall2; simpl.
  - by rewrite Hcall1, Hcall2.
  - destruct Hex2 as [[w Hw] | Hpos]; [| lia].
    rewrite Hcall2.
    set (self2 := Detector _ _ _).
    destruct (add_sample_cases self2 tag1 value1)
      as [(_ & _ & ->) | [Hex Hcall]]; [done |].
    exfalso. subst self2. simpl in Hex.
    rewrite lookup_insert_ne in Hex by done. rewrite Hnone1 in Hex.
    destruct Hex as [[? ?] | ?]; [done | lia].
  - destruct Hex1 as [[w Hw] | Hpos]; [| lia].
    rewrite Hcall1.
    set (self1 := Detector _ _ _).
    destruct (add_sample_cases self1 tag2 value2)
      as [(_ & _ & ->) | [Hex Hcall]]; [done |].
    exfalso. subst self1. simpl in Hex.
    rewrite lookup_insert_ne in Hex by done. rewrite Hnone2 in Hex.
    destruct Hex as [[? ?] | ?]; [done | lia].
  - set (self1 := Detector _ _ (<[tag1:=_]> _)).
    set (self2 := Detector _ _ (<[tag2:=_]> _)).
    rewrite (add_sample_run self1 tag2 value2), (add_sample_run self2 tag1 value1);
      cycle 1.
    { subst self2. simpl. rewrite lookup_insert_ne by done. exact Hex1. }
    { subst self1. simpl. rewrite lookup_insert_ne by done. exact Hex2. }
    assert (window_before self1 tag2 = window_before self tag2) as ->.
    { unfold window_before. subst self1. simpl.
      by rewrite lookup_insert_ne. }
    assert (window_before self2 tag1 = window_before self tag1) as ->.
    { unfold window_before. subst self2. simpl.
      by rewrite lookup_insert_ne by done. }
    subst self1 self2. simpl.
    assert (<[tag2:=deque_append (window_before self tag2) value2]>
              (<[tag1:=deque_append (window_before self tag1) value1]>
                 (history self))
            = <[tag1:=deque_append (window_before self tag1) value1]>
                (<[tag2:=deque_append (window_before self tag2) value2]>
                   (history self))) as Hswap
      by (by apply insert_insert_ne).
    rewrite Hswap. repeat split.
    + apply evaluate_ext; simpl; [done | done |].
      by rewrite !lookup_insert_eq.
    + apply evaluate_ext; simpl; [done | done |].
      by rewrite lookup_insert_ne, !lookup_insert_eq by done.
Qed.

End Independence.

(** ** A window size of zero *)

Section ZeroWindow.
Context `{NumPy}.

(** Dividing by zero gives NaN or an infinity. *)
Lemma div_zero_cases x :
  (x / 0)%float = nan \/ (x / 0)%float = infinity \/
  (x / 0)%float = neg_infinity.
Proof.
  assert (Prim2SF (x / 0) = S754_nan \/
          Prim2SF (x / 0) = S754_infinity false \/
          Prim2SF (x / 0) = S754_infinity true) as Hcases.
  { rewrite FloatAxioms.div_spec. change (Prim2SF 0) with (S754_zero false).
    destruct (Prim2SF x) as [s|[|]| |[|] m e]; simpl; auto. }
  destruct Hcases as [Hq | [Hq | Hq]]; [left | right; left | right; right];
    by apply Prim2SF_inj.
Qed.

(** The distance to plus infinity, over plus infinity, is NaN. *)
Lemma abs_sub_infinity_div x :
  (PrimFloat.abs (x - infinity) / infinity)%float = nan.
Proof.
  apply Prim2SF_inj.
  rewrite FloatAxioms.div_spec, FloatAxioms.abs_spec, FloatAxioms.sub_spec.
  change (Prim2SF infinity) with (S754_infinity false).
  change (Prim2SF nan) with S754_nan.
  by destruct (Prim2SF x) as [s|[|]| |s m e].
Qed.

(** Over an empty window the z-score is NaN. *)
Lemma z_score_empty value :
  PrimFloat.eqb (np_std []) 0 = false ->
  (PrimFloat.abs (value - np_mean []) / np_std [])%float = nan.
Proof.
  unfold np_std, np_mean. simpl map.
  change (float_of_count (length [])) with 0%float.
  destruct (div_zero_cases (np_sum [])) as [-> | [-> | ->]]; intros _.
  - by rewrite sub_nan_r.
  - change (PrimFloat.sqrt infinity) with infinity.
    apply abs_sub_infinity_div.
  - change (PrimFloat.sqrt neg_infinity) with nan. apply div_nan_r.
Qed.

(** X3. In a detector built with [window_size = 0] every window stays
    empty, every call is evaluated, and no sample is ever reported as an
    anomaly. *)
Theorem zero_window_never_flags th samples tag_name value :
  let self := (add_samples (init 0 th) samples).1 in
  let call := add_sample self tag_name value in
  history call.1 !! tag_name = Some (Deque 0 []) /\
  call.2 <> Ok None /\
  is_ok call.2 = true /\
  flagged call.2 = false.
Proof.
  intros self call.
  assert (tracks 0 (init 0 th) tag_name []) as Htr0 by done.
  destruct (add_samples_tracks 0 samples _ _ _ ltac:(lia) Htr0) as [Htr _].
  fold self in Htr. simpl in Htr.
  pose proof (add_sample_tracks 0 self tag_name _ tag_name value
                ltac:(lia) Htr) as [_ Hafter].
  rewrite decide_True in Hafter by done. fold call in Hafter.
  assert (history call.1 !! tag_name = Some (Deque 0 [])) as Hw.
  { rewrite Hafter.
    destruct (pushed tag_name samples ++ [value]) as [|v0 vs0] eqn:Hvs.
    { by destruct (pushed tag_name samples). }
    unfold most_recent. simpl Z.to_nat. by rewrite Nat.sub_0_r, drop_all. }
  split; [done |].
  destruct Htr as [Hsize _]. subst call.
  rewrite add_sample_run in * by (right; lia). simpl in *.
  unfold evaluate. simpl. rewrite Hw, Hsize. simpl.
  destruct (PrimFloat.eqb (np_std []) 0) eqn:Hstd; [done |].
  unfold true_divide. rewrite Hstd, z_score_empty by done.
  by rewrite ltb_nan_r.
Qed.

End ZeroWindow.

(** * Further properties of the polling loop *)

Lemma add_samples_app `{NumPy} l1 : forall self l2,
  add_samples self (l1 ++ l2) =
    ((add_samples (add_samples self l1).1 l2).1,
     (add_samples self l1).2 ++ (add_samples (add_samples self l1).1 l2).2).
Proof.
  induction l1 as [|[t v] l1 IH]; intros self l2; simpl.
  - by destruct (add_samples self l2).
  - destruct (add_sample self t v) as [self1 r]. rewrite IH.
    destruct (add_samples self1 l1) as [self2 rs]. simpl.
    by destruct (add_samples self2 l2).
Qed.

Section Feeding.
Context `{NumPy} `{Builtins}.
Variable cfg : Config.

Local Abbreviation poll st nodes := (fold_left (poll_node cfg) nodes st).

(** A node with a successful read is one call of [add_sample]; it
    counts when the call reports an anomaly. A failed read is no call. *)
Lemma poll_node_feeds st node :
  detector (poll_node cfg st node) =
    (add_samples (detector st) (successful [node])).1 /\
  anomaly_count (poll_node cfg st node) =
    anomaly_count st +
    Z.of_nat (length (filter (fun r => flagged r = true)
                        (add_samples (detector st) (successful [node])).2)).
Proof.
  destruct st as [d c b out]. destruct node as [tag_name [value|e]];
    unfold successful; simpl; [| split; [done | lia]].
  destruct (add_sample d tag_name value) as [d' [[[[[|] z] m]|]|e]]; simpl;
    split; try done; rewrite ?filter_cons; simpl; try lia.
Qed.

Lemma poll_feeds nodes : forall st,
  detector (poll st nodes) =
    (add_samples (detector st) (successful nodes)).1 /\
  anomaly_count (poll st nodes) =
    anomaly_count st +
    Z.of_nat (length (filter (fun r => flagged r = true)
                        (add_samples (detector st) (successful nodes)).2)).
Proof.
  induction nodes as [|node nodes IH]; intros st.
  - simpl. split; [done | lia].
  - change (node :: nodes) with ([node] ++ nodes).
    unfold successful. rewrite omap_app. fold (successful [node]).
    fold (successful nodes). rewrite add_samples_app. simpl fold_left.
    destruct (poll_node_feeds st node) as [Hd Hc].
    destruct (IH (poll_node cfg st node)) as [Hd' Hc'].
    rewrite Hd', Hc', Hd, Hc. simpl. split; [done |].
    rewrite filter_app, length_app. lia.
Qed.

Lemma cycle_feeds iot_client st i :
  detector (cycle cfg iot_client st i) =
    (add_samples (detector st) (successful (reads i))).1 /\
  anomaly_count (cycle cfg iot_client st i) =
    anomaly_count st +
    Z.of_nat (length (filter (fun r => flagged r = true)
                        (add_samples (detector st) (successful (reads i))).2)).
Proof.
  unfold cycle.
  destruct (poll_feeds (reads i)
              (LoopState (detector st) (anomaly_count st) [] (output st)))
    as [Hd Hc]. simpl in Hd, Hc.
  set (polled := poll _ (reads i)) in *.
  destruct polled as [d c b out]. simpl in *.
  destruct (send_alert_frame cfg iot_client d c b (now i) (delivery i))
    as [evs ->].
  done.
Qed.

Lemma run_feeds iot_client inputs : forall st,
  let fed :=
    add_samples (detector st) (inputs ≫= fun i => successful (reads i)) in
  detector (run cfg iot_client st inputs) = fed.1 /\
  anomaly_count (run cfg iot_client st inputs) =
    anomaly_count st +
    Z.of_nat (length (filter (fun r => flagged r = true) fed.2)).
Proof.
  induction inputs as [|i inputs IH]; intros st.
  - simpl. split; [done | lia].
  - simpl. rewrite add_samples_app.
    destruct (cycle_feeds iot_client st i) as [Hd Hc].
    destruct (IH (cycle cfg iot_client st i)) as [Hd' Hc'].
    rewrite Hd', Hc', Hd, Hc. simpl. split; [done |].
    rewrite filter_app, length_app, Nat2Z.inj_add, Z.add_assoc. reflexivity.
Qed.

(** X7. Whatever the clock, the client and the deliveries, after any
    number of turns the detector of the loop is the one obtained by
    feeding [add_sample] the successfully read values, cycle after cycle
    in the order of the nodes, and the running total is the number of
    those calls that reported an anomaly. Failed reads feed nothing. *)
Theorem loop_feeds_successful_reads iot_client inputs :
  let fed :=
    add_samples (init (WINDOW_SIZE cfg) (ANOMALY_THRESHOLD cfg))
      (inputs ≫= fun i => successful (reads i)) in
  detector (run cfg iot_client (start cfg) inputs) = fed.1 /\
  anomaly_count (run cfg iot_client (start cfg) inputs) =
    Z.of_nat (length (filter (fun r => flagged r = true) fed.2)).
Proof.
  intros fed. destruct (run_feeds iot_client inputs (start cfg)) as [Hd Hc].
  split; [exact Hd |]. rewrite Hc. apply Z.add_0_l.
Qed.

End Feeding.

(** ** A read that fails *)

Lemma successful_cons node nodes :
  successful (node :: nodes) = successful [node] ++ successful nodes.
Proof.
  change (node :: nodes) with ([node] ++ nodes).
  unfold successful. by rewrite omap_app.
Qed.

Section Isolation.
Context `{NumPy} `{Builtins}.
Variable cfg : Config.

Local Abbreviation poll st nodes := (fold_left (poll_node cfg) nodes st).

Lemma successful_app l1 l2 :
  successful (l1 ++ l2) = successful l1 ++ successful l2.
Proof. unfold successful. apply omap_app. Qed.

Lemma batch_of_cons self tag_name value samples :
  batch_of cfg self ((tag_name, value) :: samples) =
    option_list
      (batch_entry cfg
         ((tag_name, value), (add_sample self tag_name value).2)) ++
    batch_of cfg (add_sample self tag_name value).1 samples.
Proof.
  unfold batch_of. cbn [add_samples].
  destruct (add_sample self tag_name value) as [self1 r]. cbn [fst snd].
  destruct (add_samples self1 samples) as [self2 rs]. simpl.
  by destruct r as [[[[[|] z] m]|]|e].
Qed.

Lemma batch_of_app l1 : forall self l2,
  batch_of cfg self (l1 ++ l2) =
    batch_of cfg self l1 ++ batch_of cfg (add_samples self l1).1 l2.
Proof.
  induction l1 as [|[t v] l1 IH]; intros self l2; [done |].
  rewrite <- app_comm_cons, !batch_of_cons, IH, <- app_assoc.
  do 3 f_equal. cbn [add_samples].
  destruct (add_sample self t v) as [self1 r]. cbn [fst].
  by destruct (add_samples self1 l1).
Qed.

(** What one node adds to the batch: the entry of its call, when its read
    succeeded and the call reported an anomaly. *)
Lemma poll_node_batch_of st node :
  anomalies_detected (poll_node cfg st node) =
    anomalies_detected st ++ batch_of cfg (detector st) (successful [node]).
Proof.
  destruct st as [d c b out]. destruct node as [tag_name [value|e]];
    unfold successful, batch_of; simpl; [| by rewrite app_nil_r].
  destruct (add_sample d tag_name value) as [d' [[[[[|] z] m]|]|e]]; simpl;
    by rewrite ?app_nil_r.
Qed.

Lemma poll_batch_of nodes : forall st,
  anomalies_detected (poll st nodes) =
    anomalies_detected st ++ batch_of cfg (detector st) (successful nodes).
Proof.
  induction nodes as [|node nodes IH]; intros st.
  - simpl. by rewrite app_nil_r.
  - rewrite successful_cons, batch_of_app. cbn [fold_left].
    rewrite IH, poll_node_batch_of, <- app_assoc.
    by destruct (poll_node_feeds cfg st node) as [-> _].
Qed.

(** The batch at the end of a cycle: the entries of the calls made on
    the successful reads that reported an anomaly. *)
Lemma cycle_batch_of iot_client st i :
  anomalies_detected (cycle cfg iot_client st i) =
    batch_of cfg (detector st) (successful (reads i)).
Proof.
  unfold cycle.
  pose proof (poll_batch_of (reads i)
                (LoopState (detector st) (anomaly_count st) [] (output st)))
    as Hbatch.
  cbn [anomalies_detected detector] in Hbatch.
  set (polled := poll _ (reads i)) in *.
  destruct polled as [d c b out]. cbn [anomalies_detected] in Hbatch.
  destruct (send_alert_frame cfg iot_client d c b (now i) (delivery i))
    as [evs ->].
  by rewrite Hbatch.
Qed.

(** C8. A read that fails is reported on the log and its signal is
    skipped; the other signals of the cycle are read and classified all
    the same: the detector has been fed, in the order of the nodes, the
    values of the nodes before and after the failure whose read succeeded,
    the batch holds the entry of each of those calls that reported an
    anomaly, the running total has grown by their number, and the alert, if
    any, is the one of that batch. The cycle ends as it would have ended
    had the failing node not been in the list, but for the "Error reading"
    line printed at the place of the failed read; and the loop goes on: its
    later turns feed the detector and print what they would have printed
    without the failure. *)
Theorem read_failure_isolated iot_client st ts pre tag_name e post dl :
  let failed :=
    cycle cfg iot_client st
      (CycleInput ts (pre ++ (tag_name, Raise e) :: post) dl) in
  let skipped :=
    cycle cfg iot_client st (CycleInput ts (pre ++ post) dl) in
  let before :=
    output (poll (LoopState (detector st) (anomaly_count st) [] (output st))
              pre) in
  let others := successful pre ++ successful post in
  let batch := batch_of cfg (detector st) others in
  detector failed = (add_samples (detector st) others).1 /\
  anomalies_detected failed = batch /\
  anomaly_count failed = anomaly_count st + Z.of_nat (length batch) /\
  alerts_sent (output failed) =
    alerts_sent (output st) ++
      (if iot_client && bool_decide (batch <> [])
       then [make_alert cfg failed ts] else []) /\
  detector failed = detector skipped /\
  anomaly_count failed = anomaly_count skipped /\
  anomalies_detected failed = anomalies_detected skipped /\
  alerts_sent (output failed) = alerts_sent (output skipped) /\
  (exists after,
     output skipped = before ++ after /\
     output failed = before ++ read_error_line tag_name e :: after) /\
  (forall more, exists later,
     output (run cfg iot_client skipped more) = output skipped ++ later /\
     output (run cfg iot_client failed more) = output failed ++ later /\
     detector (run cfg iot_client failed more)
       = detector (run cfg iot_client skipped more) /\
     anomaly_count (run cfg iot_client failed more)
       = anomaly_count (run cfg iot_client skipped more) /\
     detector (run cfg iot_client failed more)
       = (add_samples (detector failed)
            (more ≫= fun i => successful (reads i))).1).
Proof.
  intros failed skipped before others batch.
  assert (successful (pre ++ (tag_name, Raise e) :: post) = others) as Hothers.
  { by rewrite successful_app, (successful_cons _ post). }
  destruct (cycle_feeds cfg iot_client st
              (CycleInput ts (pre ++ (tag_name, Raise e) :: post) dl))
    as [Hfed _].
  pose proof (cycle_batch_of iot_client st
                (CycleInput ts (pre ++ (tag_name, Raise e) :: post) dl))
    as Hbatch.
  destruct (cycle_alerts cfg iot_client st
              (CycleInput ts (pre ++ (tag_name, Raise e) :: post) dl))
    as [Halert Hcount].
  cbn [reads now] in Hfed, Hbatch, Halert, Hcount.
  rewrite Hothers in Hfed, Hbatch.
  fold failed in Hfed, Hbatch, Halert, Hcount. fold batch in Hbatch.
  assert (bool_decide (anomalies_detected failed <> []) =
          bool_decide (batch <> [])) as Hdec
    by (apply bool_decide_ext; by rewrite Hbatch).
  rewrite Hdec in Halert. rewrite Hbatch in Hcount.
  assert (detector failed = detector skipped /\
          anomaly_count failed = anomaly_count skipped /\
          anomalies_detected failed = anomalies_detected skipped /\
          alerts_sent (output failed) = alerts_sent (output skipped) /\
          exists after,
            output skipped = before ++ after /\
            output failed = before ++ read_error_line tag_name e :: after)
    as (Hd & Hc & Hb & Hsent & Hout).
  { subst failed skipped. unfold cycle. simpl.
    rewrite !fold_left_app. simpl. fold before.
    set (s1 := poll (LoopState (detector st) (anomaly_count st) [] (output st))
                 pre) in *.
    destruct (poll_frame cfg post (log_read_error s1 tag_name e))
      as (-> & _ & _).
    destruct (poll_frame cfg post s1) as (-> & _ & _).
    simpl.
    set (s0 := poll (LoopState (detector s1) 0 [] []) post).
    destruct (send_alert_frame cfg iot_client (detector s0)
                (anomaly_count s1 + anomaly_count s0)
                (anomalies_detected s1 ++ anomalies_detected s0) ts dl)
      as [evs Hsend].
    rewrite !Hsend. simpl. repeat split.
    - rewrite !alerts_sent_app. simpl. by rewrite app_nil_r.
    - exists (output s0 ++ evs). split.
      + by rewrite app_assoc.
      + unfold read_error_line. by rewrite <- !app_assoc. }
  repeat split; try done.
  intros more.
  destruct (run_frame cfg iot_client more failed skipped Hd Hc Hb)
    as (later & Ho1 & Ho2 & Hd' & Hc' & _).
  destruct (run_feeds cfg iot_client more failed) as [Hlater _].
  by exists later.
Qed.

End Isolation.

(** ** The alerts *)

Lemma total_count_app l1 l2 :
  total_count (l1 ++ l2) = total_count l1 + total_count l2.
Proof.
  unfold total_count. rewrite fmap_app.
  induction (anomalyCount <$> l1) as [|x xs IH]; simpl; lia.
Qed.

Section Alerts.
Context `{NumPy} `{Builtins}.
Variable cfg : Config.

Local Abbreviation poll st nodes := (fold_left (poll_node cfg) nodes st).

Lemma cycle_totals_add_up st i :
  totals_add_up st -> totals_add_up (cycle cfg true st i).
Proof.
  intros [Hsum Hprefix].
  destruct (cycle_alerts cfg true st i) as [Hsent Hcount].
  unfold totals_add_up. rewrite Hsent, Hcount. simpl.
  case_bool_decide as Hbatch.
  - split.
    + rewrite total_count_app, Hsum. unfold total_count. simpl. lia.
    + intros j a Hj.
      destruct (decide (j < length (alerts_sent (output st)))%nat) as [Hlt | Hge].
      * rewrite lookup_app_l in Hj by done.
        rewrite take_app_le by lia. by apply Hprefix.
      * rewrite lookup_app_r in Hj by lia.
        destruct (j - length (alerts_sent (output st)))%nat as [|k] eqn:Hk;
          [| by destruct k].
        simpl in Hj. injection Hj as <-.
        rewrite take_ge by (rewrite length_app; simpl; lia).
        rewrite total_count_app, <- Hsum. unfold total_count. simpl.
        rewrite Hcount. lia.
  - rewrite app_nil_r. split.
    + rewrite Hbatch. simpl. lia.
    + exact Hprefix.
Qed.

Lemma run_totals_add_up inputs : forall st,
  totals_add_up st -> totals_add_up (run cfg true st inputs).
Proof.
  induction inputs as [|i inputs IH]; intros st Hst; [done |].
  simpl. apply IH. by apply cycle_totals_add_up.
Qed.

(** X8. With a client connected, the [totalAnomalies] of every alert is
    the sum of the [anomalyCount]s of the alerts sent up to and including
    it: no anomaly is counted without being reported in an alert. *)
Theorem total_is_sum_of_counts inputs j a :
  let sent := alerts_sent (output (run cfg true (start cfg) inputs)) in
  sent !! j = Some a ->
  totalAnomalies a = total_count (take (S j) sent).
Proof.
  intros sent Hj.
  assert (totals_add_up (start cfg)) as Hstart.
  { split; [done |]. intros k a' Hnone. simpl in Hnone. by destruct k. }
  destruct (run_totals_add_up inputs _ Hstart) as [_ Hprefix].
  by apply Hprefix.
Qed.

(** What one node adds to the batch: nothing, or one entry with the tag
    of the node, for a read that succeeded. *)
Lemma poll_node_batch d node :
  let s0 := poll_node cfg (LoopState d 0 [] []) node in
  (info_tag <$> anomalies_detected s0) `sublist_of` (successful [node]).*1 /\
  Forall (fun info => info_threshold info = ANOMALY_THRESHOLD cfg)
    (anomalies_detected s0).
Proof.
  destruct node as [tag_name [value|e]]; unfold successful; simpl; [| done].
  destruct (add_sample d tag_name value) as [d' [[[[[|] z] m]|]|e]]; simpl;
    split; try done; try (by apply sublist_nil_l).
  by repeat constructor.
Qed.

Lemma poll_batch nodes : forall d,
  let s0 := poll (LoopState d 0 [] []) nodes in
  (info_tag <$> anomalies_detected s0) `sublist_of` (successful nodes).*1 /\
  Forall (fun info => info_threshold info = ANOMALY_THRESHOLD cfg)
    (anomalies_detected s0).
Proof.
  induction nodes as [|node nodes IH]; intros d; [done |].
  rewrite successful_cons. cbn [fold_left].
  destruct (poll_node_batch d node) as [Hsub1 Hthr1].
  set (s1 := poll_node cfg (LoopState d 0 [] []) node) in *.
  destruct (poll_frame cfg nodes s1) as (Hrun & _ & _).
  destruct (IH (detector s1)) as [Hsub2 Hthr2].
  cbv zeta. rewrite Hrun. cbn [anomalies_detected].
  rewrite !fmap_app. split.
  - by apply sublist_app.
  - by apply Forall_app.
Qed.

Lemma cycle_batch iot_client st i :
  (info_tag <$> anomalies_detected (cycle cfg iot_client st i))
    `sublist_of` (successful (reads i)).*1 /\
  Forall (fun info => info_threshold info = ANOMALY_THRESHOLD cfg)
    (anomalies_detected (cycle cfg iot_client st i)).
Proof.
  destruct (poll_batch (reads i) (detector st)) as [Hsub Hthr].
  cbv zeta in Hsub, Hthr.
  rewrite (cycle_frame cfg iot_client st i). cbn [anomalies_detected].
  unfold cycle. cbn [detector anomaly_count output].
  destruct (poll_frame cfg (reads i)
              (LoopState (detector st) (anomaly_count st) [] []))
    as (Hrun & _ & _).
  cbn [detector anomaly_count anomalies_detected output] in Hrun.
  rewrite Hrun.
  set (s0 := poll (LoopState (detector st) 0 [] []) (reads i)) in *.
  destruct (send_alert_frame cfg iot_client (detector s0)
              (anomaly_count st + anomaly_count s0)
              ([] ++ anomalies_detected s0) (now i) (delivery i)) as [evs ->].
  done.
Qed.

(** Every alert of a run was built at the end of one of its cycles, from
    a batch that was not empty. *)
Lemma run_alert_origin iot_client inputs : forall st a,
  a ∈ alerts_sent (output (run cfg iot_client st inputs)) ->
  a ∈ alerts_sent (output st) \/
  exists i st',
    i ∈ inputs /\
    a = make_alert cfg (cycle cfg iot_client st' i) (now i) /\
    anomalies_detected (cycle cfg iot_client st' i) <> [].
Proof.
  induction inputs as [|i inputs IH]; intros st a Ha; [by left |].
  simpl in Ha. apply IH in Ha as [Ha | (i' & st' & Hi' & Hrest)].
  - destruct (cycle_alerts cfg iot_client st i) as [Hsent _].
    rewrite Hsent in Ha. apply elem_of_app in Ha as [Ha | Ha]; [by left |].
    right. exists i, st. split; [by left |].
    destruct iot_client; simpl in Ha; [| by apply elem_of_nil in Ha].
    case_bool_decide; [| by apply elem_of_nil in Ha].
    by apply list_elem_of_singleton in Ha.
  - right. exists i', st'. split; [by right | done].
Qed.

(** X9. Every alert of a run is well formed: it is an "anomalyAlert" of
    this device, stamped with the time of one of the cycles, it reports at
    least one anomaly, each with the configured threshold, and the tags it
    lists are tags of that cycle whose read succeeded, each at most once
    per node and in the order of the nodes. *)
Theorem alert_lists_polled_tags iot_client inputs a :
  a ∈ alerts_sent (output (run cfg iot_client (start cfg) inputs)) ->
  messageType a = "anomalyAlert"%string /\
  deviceId a = DEVICE_ID cfg /\
  1 <= anomalyCount a /\
  Forall (fun info => info_threshold info = ANOMALY_THRESHOLD cfg)
    (anomalies a) /\
  exists i,
    i ∈ inputs /\ timestamp a = now i /\
    (info_tag <$> anomalies a) `sublist_of` (successful (reads i)).*1.
Proof.
  intros Ha.
  apply run_alert_origin in Ha as [Ha | (i & st' & Hi & -> & Hbatch)].
  { by apply elem_of_nil in Ha. }
  destruct (cycle_batch iot_client st' i) as [Hsub Hthr].
  simpl. repeat split; try done.
  - destruct (anomalies_detected (cycle cfg iot_client st' i)); [done |].
    simpl length. lia.
  - by exists i.
Qed.

(** X10. A delivery that fails is reported on the log and changes
    nothing else: the alert was handed over once, the detector, the
    running total and the batch are those of a successful delivery, and
    the later turns send the alerts they would have sent; nothing is sent
    again. *)
Theorem delivery_failure_not_retried st ts rs e :
  let failed := cycle cfg true st (CycleInput ts rs (Raise e)) in
  let delivered := cycle cfg true st (CycleInput ts rs (Ok tt)) in
  detector failed = detector delivered /\
  anomaly_count failed = anomaly_count delivered /\
  anomalies_detected failed = anomalies_detected delivered /\
  alerts_sent (output failed) = alerts_sent (output delivered) /\
  (anomalies_detected failed = [] \/
   last (output failed) = Some (delivery_error_line e)) /\
  (forall more,
     alerts_sent (output (run cfg true failed more)) =
     alerts_sent (output (run cfg true delivered more))).
Proof.
  intros failed delivered.
  assert (detector failed = detector delivered /\
          anomaly_count failed = anomaly_count delivered /\
          anomalies_detected failed = anomalies_detected delivered /\
          alerts_sent (output failed) = alerts_sent (output delivered) /\
          (anomalies_detected failed = [] \/
           last (output failed) = Some (delivery_error_line e)))
    as (Hd & Hc & Hb & Hsent & Hlast).
  { subst failed delivered. unfold cycle. simpl.
    set (polled := poll _ rs). destruct polled as [d c [|info b] out].
    - repeat split; try done. by left.
    - unfold send_alert. simpl. repeat split.
      + by rewrite !alerts_sent_app.
      + right. by rewrite last_snoc. }
  repeat split; try done.
  intros more.
  destruct (run_frame cfg true more failed delivered Hd Hc Hb)
    as (later & -> & -> & _).
  by rewrite !alerts_sent_app, Hsent.
Qed.

(** Under a [WINDOW_SIZE] that [deque] refuses a node only prints a
    line. *)
Lemma poll_node_refused st node :
  ~ 0 <= window_size (detector st) <= PY_SSIZE_T_MAX ->
  history (detector st) = ∅ ->
  poll_node cfg st node =
    emit st (refused_line (window_size (detector st)) node).
Proof.
  intros Hout Hempty. destruct node as [tag_name [value|e]]; simpl; [| done].
  rewrite add_sample_refused by done. by destruct st.
Qed.

Lemma poll_refused nodes : forall st,
  ~ 0 <= window_size (detector st) <= PY_SSIZE_T_MAX ->
  history (detector st) = ∅ ->
  poll st nodes =
    LoopState (detector st) (anomaly_count st) (anomalies_detected st)
      (output st ++ (refused_line (window_size (detector st)) <$> nodes)).
Proof.
  induction nodes as [|node nodes IH]; intros st Hout Hempty; simpl.
  - destruct st. simpl. by rewrite app_nil_r.
  - rewrite poll_node_refused by done. rewrite IH by done. simpl.
    by rewrite <- app_assoc.
Qed.

Lemma cycle_refused iot_client st i :
  ~ 0 <= window_size (detector st) <= PY_SSIZE_T_MAX ->
  history (detector st) = ∅ ->
  cycle cfg iot_client st i =
    LoopState (detector st) (anomaly_count st) []
      (output st ++ (refused_line (window_size (detector st)) <$> reads i)).
Proof.
  intros Hout Hempty. unfold cycle.
  by rewrite poll_refused by done.
Qed.

Lemma run_refused iot_client inputs : forall st,
  ~ 0 <= window_size (detector st) <= PY_SSIZE_T_MAX ->
  history (detector st) = ∅ ->
  anomalies_detected st = [] ->
  run cfg iot_client st inputs =
    LoopState (detector st) (anomaly_count st) []
      (output st ++
       (inputs ≫= fun i =>
          refused_line (window_size (detector st)) <$> reads i)).
Proof.
  induction inputs as [|i inputs IH]; intros st Hout Hempty Hbatch.
  - destruct st. simpl in *. subst. by rewrite app_nil_r.
  - rewrite bind_cons.
    change (run cfg iot_client st (i :: inputs))
      with (run cfg iot_client (cycle cfg iot_client st i) inputs).
    rewrite cycle_refused by done. rewrite IH by done.
    cbn [detector anomaly_count output]. by rewrite <- app_assoc.
Qed.

(** X11. With a [WINDOW_SIZE] that [deque] refuses (negative, or above
    [2^63 - 1]) the loop runs but detects nothing: every node of every
    cycle prints an "Error reading" line (for a read that succeeded, with
    the message of the error [deque] raises for that [WINDOW_SIZE]), the
    detector stays as built, the running total stays 0 and no alert is
    sent. *)
Theorem refused_window_size_disables_detection iot_client inputs :
  WINDOW_SIZE cfg < 0 \/ PY_SSIZE_T_MAX < WINDOW_SIZE cfg ->
  run cfg iot_client (start cfg) inputs =
    LoopState (init (WINDOW_SIZE cfg) (ANOMALY_THRESHOLD cfg)) 0 []
      (inputs ≫= fun i => refused_line (WINDOW_SIZE cfg) <$> reads i).
Proof.
  intros Hout. rewrite run_refused; [done | simpl; lia | done | done].
Qed.

End Alerts.

(** * Properties of [main] *)

Lemma resolve_nodes_lines get_node tags :
  alerts_sent (resolve_nodes get_node tags).2 = [].
Proof.
  induction tags as [|[tag_path tag_name] tags IH]; [done |].
  simpl. destruct (resolve_nodes get_node tags) as [nodes lines].
  by destruct (get_node tag_path).
Qed.

(** The nodes are the monitored tags whose node could be obtained. *)
Lemma resolve_nodes_resolved get_node tags node :
  node ∈ (resolve_nodes get_node tags).1 ->
  node ∈ tags /\ is_ok (get_node node.1) = true.
Proof.
  induction tags as [|[tag_path tag_name] tags IH]; simpl.
  { by intros ?%elem_of_nil. }
  destruct (resolve_nodes get_node tags) as [nodes lines]. simpl in IH.
  destruct (get_node tag_path) eqn:Hget; simpl.
  - intros [-> | Hin]%elem_of_cons.
    + split; [by left |]. simpl. by rewrite Hget.
    + destruct (IH Hin). split; [by right | done].
  - intros Hin. destruct (IH Hin). split; [by right | done].
Qed.

Lemma connect_iot_hub_lines env : alerts_sent (connect_iot_hub env).2 = [].
Proof.
  unfold connect_iot_hub.
  destruct (IOT_HUB_CONNECTION_STRING env); [done |].
  destruct (create_from_connection_string env); [| done].
  by destruct (iot_connect env).
Qed.

Lemma connect_iot_hub_client env :
  (connect_iot_hub env).1 = true ->
  IOT_HUB_CONNECTION_STRING env <> ""%string /\
  is_ok (create_from_connection_string env) = true.
Proof.
  unfold connect_iot_hub.
  destruct (IOT_HUB_CONNECTION_STRING env); [done |].
  destruct (create_from_connection_string env); [| done].
  by destruct (iot_connect env).
Qed.

Lemma successful_tags reads : (successful reads).*1 ⊆ reads.*1.
Proof.
  induction reads as [|[tag_name [value|e]] reads IH];
    [done | |]; rewrite successful_cons; unfold successful at 1; simpl.
  - by apply list_subseteq_skip.
  - by apply list_subseteq_cons.
Qed.

Section Main.
Context `{NumPy} `{Builtins}.
Variable cfg : Config.

Lemma run_without_client inputs : forall st,
  alerts_sent (output (run cfg false st inputs)) = alerts_sent (output st).
Proof.
  induction inputs as [|i inputs IH]; intros st; [done |].
  simpl. rewrite IH.
  destruct (cycle_alerts cfg false st i) as [-> _]. simpl.
  by rewrite app_nil_r.
Qed.

(** X12. [main] hands an alert to the IoT Hub client only if the
    connection string is not empty, the client could be created and the
    OPC-UA server could be connected to. Otherwise it sends nothing,
    however many anomalies it logs. *)
Theorem alert_needs_client env turns a :
  Sent a ∈ output (main cfg env turns) ->
  IOT_HUB_CONNECTION_STRING env <> ""%string /\
  is_ok (create_from_connection_string env) = true /\
  is_ok (opcua_connect env) = true.
Proof.
  intros Ha%elem_of_alerts_sent. unfold main in Ha.
  pose proof (connect_iot_hub_lines env) as Hlines.
  pose proof (connect_iot_hub_client env) as Hclient.
  destruct (connect_iot_hub env) as [iot_client iot_lines].
  simpl in Hlines, Hclient.
  destruct (opcua_connect env) as [[]|e].
  - pose proof (resolve_nodes_lines (get_node env) MONITORED_TAGS) as Hnodes.
    destruct (resolve_nodes (get_node env) MONITORED_TAGS) as [nodes node_lines].
    simpl in Hnodes.
    destruct iot_client.
    + destruct Hclient; done.
    + rewrite run_without_client in Ha. simpl in Ha.
      rewrite alerts_sent_app, Hlines in Ha. simpl in Ha.
      rewrite Hnodes in Ha. by apply elem_of_nil in Ha.
  - simpl in Ha. rewrite alerts_sent_app, Hlines in Ha.
    by apply elem_of_nil in Ha.
Qed.

(** X13. A client whose [connect()] failed is used all the same: but
    for the line that reports the failure, [main] behaves as it does when
    the connection succeeds, and hands over the same alerts. *)
Theorem failed_connect_still_sends cs create oc gn e turns :
  let failed := main cfg (Startup cs create (Raise e) oc gn) turns in
  let connected := main cfg (Startup cs create (Ok tt) oc gn) turns in
  alerts_sent (output failed) = alerts_sent (output connected) /\
  detector failed = detector connected /\
  anomaly_count failed = anomaly_count connected.
Proof.
  unfold main, connect_iot_hub.
  cbn [IOT_HUB_CONNECTION_STRING create_from_connection_string iot_connect
       opcua_connect get_node].
  destruct cs as [|c cs]; [done |].
  destruct create as [[]|e']; [| done].
  destruct oc as [[]|e']; [| done].
  pose proof (resolve_nodes_lines gn MONITORED_TAGS) as Hnodes.
  destruct (resolve_nodes gn MONITORED_TAGS) as [nodes node_lines].
  cbn [snd] in Hnodes. cbv zeta.
  match goal with
  | |- alerts_sent (output (run _ _ ?s1 ?ins)) =
       alerts_sent (output (run _ _ ?s2 _)) /\ _ =>
      destruct (run_frame cfg true ins s1 s2)
        as (later & Ho1 & Ho2 & Hd & Hc & _); [done .. |]
  end.
  split; [| done]. rewrite Ho1, Ho2, !alerts_sent_app. done.
Qed.

Lemma pushed_tag tag_name samples :
  pushed tag_name samples <> [] -> exists value, (tag_name, value) ∈ samples.
Proof.
  induction samples as [|[t v] samples IH]; [done |].
  rewrite pushed_cons. case_decide as Ht.
  - subst t. intros _. exists v. by left.
  - intros [value Hin]%IH. exists value. by right.
Qed.

(** X14. The memory of [main] is bounded: whatever the turns, the
    detector holds a window only for a monitored tag whose node could be
    obtained (three at most), every window has the configured bound and
    never holds more than [WINDOW_SIZE] values. *)
Theorem windows_bounded env turns tag_name w :
  history (detector (main cfg env turns)) !! tag_name = Some w ->
  (exists tag_path,
     (tag_path, tag_name) ∈ MONITORED_TAGS /\
     is_ok (get_node env tag_path) = true) /\
  maxlen w = WINDOW_SIZE cfg /\
  len w <= WINDOW_SIZE cfg.
Proof.
  unfold main.
  destruct (connect_iot_hub env) as [iot_client iot_lines].
  destruct (opcua_connect env) as [[]|e]; [| done].
  pose proof (resolve_nodes_resolved (get_node env) MONITORED_TAGS) as Hres.
  destruct (resolve_nodes (get_node env) MONITORED_TAGS) as [nodes node_lines].
  cbn [fst] in Hres.
  match goal with
  | |- context [run cfg iot_client ?s ?ins] =>
      destruct (run_feeds cfg iot_client ins s) as [-> _]
  end.
  cbn [detector].
  set (samples := _ ≫= _).
  destruct (decide (0 <= WINDOW_SIZE cfg <= PY_SSIZE_T_MAX)) as [Hfits | Hout].
  2: { by rewrite add_samples_refused. }
  assert (tracks (WINDOW_SIZE cfg)
            (init (WINDOW_SIZE cfg) (ANOMALY_THRESHOLD cfg)) tag_name [])
    as Htr0 by done.
  destruct (add_samples_tracks _ samples _ _ _ Hfits Htr0) as [[_ ->] _].
  simpl. destruct (pushed tag_name samples) as [|v0 vs0] eqn:Hpushed; [done |].
  intros [= <-]. split; [| split; [done |]].
  - destruct (pushed_tag tag_name samples) as [value Hin];
      [by rewrite Hpushed |].
    subst samples. apply list_elem_of_bind in Hin as (i & Hin & Hi).
    apply list_elem_of_fmap in Hi as (t & -> & _).
    assert (tag_name ∈ (reads (cycle_input_of nodes t)).*1) as Htag.
    { apply (successful_tags (reads (cycle_input_of nodes t))).
      by apply (list_elem_of_fmap_2 fst) in Hin. }
    unfold cycle_input_of in Htag. cbn [reads] in Htag.
    rewrite <- list_fmap_compose in Htag.
    apply list_elem_of_fmap in Htag as ([tag_path tag_name'] & -> & Hnode).
    destruct (Hres _ Hnode) as [Hmon Hok]. by exists tag_path.
  - unfold len. cbn [items]. rewrite most_recent_length by lia. lia.
Qed.

End Main.

(** ** The further properties at work *)

(** With the default window of twenty, the ninth sample of a tag is
    still answered by the triple of [None]s (9 < 10). *)
Lemma warm_up_ends_witness :
  (@add_sample numpy_float64 (feed 20 (repeat ("Temperature"%string, f72) 8))
     "Temperature" f200).2 = Ok None.
Proof.
  apply (@warm_up_ends numpy_float64 20 f2_5
           (repeat ("Temperature"%string, f72) 8) "Temperature" f200).
  - lia.
  - vm_compute. reflexivity.
Defined.

(** A window size of -1 is refused with [ValueError], one of 2^63 with
    [OverflowError]. *)
Lemma window_size_refused_witness :
  (@add_sample numpy_float64 (init (-1) f2_5) "Temperature" f72).2 =
    Raise (ValueError "maxlen must be non-negative") /\
  (@add_sample numpy_float64 (init 9223372036854775808 f2_5)
     "Temperature" f72).2 =
    Raise (OverflowError "Python int too large to convert to C ssize_t").
Proof.
  split.
  - destruct (@window_size_refused numpy_float64 (-1) f2_5 []
                "Temperature" f72 ltac:(lia)) as [_ Hr].
    simpl in Hr. by rewrite Hr.
  - destruct (@window_size_refused numpy_float64 9223372036854775808 f2_5 []
                "Temperature" f72 ltac:(lia)) as [_ Hr].
    simpl in Hr. by rewrite Hr.
Defined.

(** The z-score of the spike of 200.0 after ten samples of 72.0. *)
Lemma z_score_not_negative_witness :
  let call :=
    @add_sample numpy_float64 (feed 20 (repeat ("Temperature"%string, f72) 10))
      "Temperature" f200 in
  z_score_of call.2 = Some 0x1.94c583ada5b53p+1%float /\
  PrimFloat.ltb 0x1.94c583ada5b53p+1 0 = false.
Proof.
  intros call.
  assert (z_score_of call.2 = Some 0x1.94c583ada5b53p+1%float) as Hz
    by (vm_compute; reflexivity).
  split; [exact Hz |].
  exact (@z_score_not_negative numpy_float64 _ _ _ _ Hz).
Defined.

Lemma add_sample_commute_witness :
  let self := feed 20 (repeat ("Temperature"%string, f72) 10) in
  (@add_sample numpy_float64
     (@add_sample numpy_float64 self "Temperature" f200).1 "Pressure" f72).1 =
  (@add_sample numpy_float64
     (@add_sample numpy_float64 self "Pressure" f72).1 "Temperature" f200).1.
Proof.
  intros self.
  destruct (@add_sample_commute numpy_float64 self "Temperature" f200
              "Pressure" f72 ltac:(done)) as [Hstate _].
  exact Hstate.
Defined.

(** Twelve cycles with a client: the second alert has a total of 3, the
    one anomaly of the first alert and the two of its own. *)
Lemma total_is_sum_of_counts_witness :
  exists a,
    alerts_sent (output (demo_run true demo_inputs)) !! 1%nat = Some a /\
    totalAnomalies a =
      total_count (take 2 (alerts_sent (output (demo_run true demo_inputs)))).
Proof.
  destruct (alerts_sent (output (demo_run true demo_inputs)) !! 1%nat)
    as [a|] eqn:Hlook; [| vm_compute in Hlook; discriminate Hlook].
  exists a. split; [reflexivity |].
  exact (@total_is_sum_of_counts numpy_float64 no_rounding demo_config
           demo_inputs 1%nat a Hlook).
Defined.

(** The first alert of the twelve cycles. *)
Lemma alert_lists_polled_tags_witness :
  exists a,
    alerts_sent (output (demo_run true demo_inputs)) !! 0%nat = Some a /\
    1 <= anomalyCount a /\ deviceId a = "ipc-01"%string.
Proof.
  destruct (alerts_sent (output (demo_run true demo_inputs)) !! 0%nat)
    as [a|] eqn:Hlook; [| vm_compute in Hlook; discriminate Hlook].
  exists a. split; [reflexivity |].
  destruct (@alert_lists_polled_tags numpy_float64 no_rounding demo_config true
              demo_inputs a) as (_ & Hdev & Hcount & _).
  - eapply list_elem_of_lookup_2. exact Hlook.
  - split; [exact Hcount | exact Hdev].
Defined.

(** A window size of -1: ten quiet cycles print thirty lines and change
    nothing else. *)
Lemma refused_window_size_disables_detection_witness :
  @run numpy_float64 no_rounding negative_config true (@start negative_config)
    demo_warm_up =
  LoopState (init (-1) f2_5) 0 []
    (demo_warm_up ≫= fun i => refused_line (-1) <$> reads i) /\
  refused_line (-1) ("Vibration"%string, Ok f72) =
    read_error_line "Vibration" (ValueError "maxlen must be non-negative").
Proof.
  split; [| reflexivity].
  apply (@refused_window_size_disables_detection numpy_float64 no_rounding
           negative_config true demo_warm_up).
  simpl. lia.
Defined.

(** [main] with a client, ten quiet turns and a spike: one alert. *)
Lemma alert_needs_client_witness :
  exists a,
    alerts_sent (output demo_main) !! 0%nat = Some a /\
    is_ok (create_from_connection_string demo_startup) = true.
Proof.
  destruct (alerts_sent (output demo_main) !! 0%nat)
    as [a|] eqn:Hlook; [| vm_compute in Hlook; discriminate Hlook].
  exists a. split; [reflexivity |].
  destruct (@alert_needs_client numpy_float64 no_rounding demo_config
              demo_startup demo_turns a) as (_ & Hcreate & _).
  - apply elem_of_alerts_sent. eapply list_elem_of_lookup_2. exact Hlook.
  - exact Hcreate.
Defined.

(** After the eleven turns the window of the vibration holds eleven
    values, under its bound of twenty. *)
Lemma windows_bounded_witness :
  exists w,
    history (detector demo_main) !! "Vibration" = Some w /\
    maxlen w = 20 /\ len w <= 20.
Proof.
  destruct (history (detector demo_main) !! "Vibration")
    as [w|] eqn:Hlook; [| vm_compute in Hlook; discriminate Hlook].
  exists w. split; [reflexivity |].
  destruct (@windows_bounded numpy_float64 no_rounding demo_config
              demo_startup demo_turns "Vibration" w Hlook) as (_ & Hmax & Hlen).
  split; [exact Hmax | exact Hlen].
Defined.
